(** * book_parser.py: a shallow embedding and its properties

    The script fetches the pages of an online book one after the other,
    writes the cleaned text of the paragraphs that follow a page marker
    to a text file, stops on a missing page or after three empty or
    repeated pages, and hands the text file to [ebook-convert].

    Layout: the embedding first (Python strings, the part of the
    BeautifulSoup tree API the script calls, the functions of the script,
    the page loop and the conversion step), then the properties. *)

From Stdlib Require Import ZArith List String Ascii Bool Lia DecimalString.
From Stdlib Require DecimalPos DecimalZ.
From Equations Require Import Equations.
Import ListNotations.

#[local] Set Warnings "-register-all".
Open Scope Z_scope.

(** ** Python strings

    A Python [str] is a sequence of Unicode code points, so it is a list
    of code points here; ['–'] is [8211] and [' '] is [160]. *)

Module PyStr.

Definition str := list N.

(** An ASCII literal of the script. *)
Definition lit (s : string) : str := map N_of_ascii (list_ascii_of_string s).

(** [str(n)] for an integer [n]. *)
Definition str_of_int (z : Z) : str := lit (NilZero.string_of_int (Z.to_int z)).

(** [a == b]. *)
Fixpoint eqb (a b : str) : bool :=
  match a, b with
  | [], [] => true
  | x :: a', y :: b' => N.eqb x y && eqb a' b'
  | _, _ => false
  end.

(** Truth value of a string: [bool(s)]. *)
Definition truthy (s : str) : bool :=
  match s with [] => false | _ :: _ => true end.

(** [c.isspace()], the characters [str.strip()] removes: CPython's
    [_PyUnicode_IsWhitespace] table. *)
Definition isspace (c : N) : bool :=
  ((9 <=? c) && (c <=? 13) || (28 <=? c) && (c <=? 32)
   || (c =? 133) || (c =? 160) || (c =? 5760)
   || (8192 <=? c) && (c <=? 8202)
   || (c =? 8232) || (c =? 8233) || (c =? 8239) || (c =? 8287)
   || (c =? 12288))%N.

Fixpoint lstrip (s : str) : str :=
  match s with
  | [] => []
  | c :: t => if isspace c then lstrip t else s
  end.

Fixpoint rstrip (s : str) : str :=
  match s with
  | [] => []
  | c :: t =>
      match rstrip t with
      | [] => if isspace c then [] else [c]
      | t' => c :: t'
      end
  end.

(** [s.strip()]. *)
Definition strip (s : str) : str := rstrip (lstrip s).

(** [s.startswith(p)]. *)
Fixpoint startswith (p s : str) : bool :=
  match p, s with
  | [], _ => true
  | _ :: _, [] => false
  | x :: p', y :: s' => N.eqb x y && startswith p' s'
  end.

(** [sub in s]: substring test. *)
Fixpoint contains (sub s : str) : bool :=
  startswith sub s ||
  match s with
  | [] => false
  | _ :: t => contains sub t
  end.

(** [s.replace(old, new)] for a non-empty [old]: occurrences are taken
    from the left and do not overlap; [skip] counts the characters of
    an occurrence that are still to be dropped. *)
Fixpoint replace_from (old new : str) (skip : nat) (s : str) : str :=
  match s with
  | [] => []
  | c :: t =>
      match skip with
      | S k => replace_from old new k t
      | O =>
          if startswith old s
          then new ++ replace_from old new (List.length old - 1) t
          else c :: replace_from old new 0 t
      end
  end.

(** [s.replace(old, new)]; an empty [old] matches before every
    character and at the end. *)
Definition replace (old new s : str) : str :=
  match old with
  | [] => new ++ flat_map (fun c => c :: new) s
  | _ :: _ => replace_from old new 0 s
  end.

End PyStr.

Import PyStr.

Definition EN_DASH : N := 8211.
Definition NBSP : N := 160.
Definition SPACE : N := 32.
Definition NEWLINE : N := 10.

(** ** The functions of the script that work on text *)

(** [save_content(file, content)]: the file is its content so far, and
    [file.write] appends. *)
Definition save_content (file content : str) : str :=
  file ++ (content ++ [NEWLINE; NEWLINE]).

(** [clean_content(content)]. *)
Definition clean_content (content : str) : str :=
  let cleaned_content :=
    strip (replace [NBSP] [SPACE] (replace [EN_DASH; NBSP] [] content)) in
  cleaned_content.

(** ** The BeautifulSoup tree, as far as the script uses it

    [BeautifulSoup(page_content, 'html.parser')] is a tree of tags and
    strings. The script reaches a node and then moves from it
    ([next_sibling], [find_next], [find_next_sibling]), so an element is
    a node together with what follows it in the document: its later
    siblings and the later siblings of each of its ancestors. Attributes
    are left out: the script never reads one. *)

Module BS4.

Inductive node : Type :=
| NavigableString (s : str)        (* text *)
| Comment (s : str)                (* a comment, doctype or declaration:
                                      a string that [get_text] leaves out *)
| Tag (name : str) (contents : list node).

(** The top-level contents of the parsed document. *)
Definition soup := list node.

Record element : Type := Element {
  here : node;                     (* the node itself *)
  right : list node;               (* its next siblings, nearest first *)
  up : list (list node)            (* next siblings of its parent, of its
                                      grandparent, ... *)
}.

(** [tag.name]; a string has none. *)
Definition name (e : element) : option str :=
  match here e with
  | Tag nm _ => Some nm
  | _ => None
  end.

Definition has_name (nm : str) (e : element) : bool :=
  match name e with
  | Some nm' => eqb nm' nm
  | None => false
  end.

(** A node and everything below it, in document order. *)
Fixpoint elements_of (n : node) (sibs : list node) (above : list (list node))
  : list element :=
  Element n sibs above ::
  match n with
  | Tag _ cs =>
      (fix inside (l : list node) : list element :=
         match l with
         | [] => []
         | c :: r => elements_of c r (sibs :: above) ++ inside r
         end) cs
  | _ => []
  end.

(** A run of siblings and everything below them, in document order. *)
Fixpoint elements_in (l : list node) (above : list (list node))
  : list element :=
  match l with
  | [] => []
  | c :: r => elements_of c r above ++ elements_in r above
  end.

(** [tag.descendants]. *)
Definition descendants (e : element) : list element :=
  match here e with
  | Tag _ cs => elements_in cs (right e :: up e)
  | _ => []
  end.

(** Everything after a run of siblings has been left: the siblings,
    then what follows the parent, and so on up to the document. *)
Fixpoint following (sibs : list node) (above : list (list node))
  : list element :=
  elements_in sibs above ++
  match above with
  | [] => []
  | s :: a => following s a
  end.

(** [tag.next_elements]: the rest of the document after [tag]. *)
Definition next_elements (e : element) : list element :=
  descendants e ++ following (right e) (up e).

(** [tag.next_siblings]. *)
Fixpoint siblings (sibs : list node) (above : list (list node))
  : list element :=
  match sibs with
  | [] => []
  | n :: r => Element n r above :: siblings r above
  end.

Definition next_siblings (e : element) : list element :=
  siblings (right e) (up e).

(** [tag.next_sibling], [None] after the last child. *)
Definition next_sibling (e : element) : option element :=
  hd_error (next_siblings e).

(** [soup.find_all(f)] for a function [f]: the tags of the document
    that [f] accepts, in document order. *)
Definition find_all (f : element -> bool) (doc : soup) : list element :=
  filter (fun e => match name e with Some _ => f e | None => false end)
         (elements_in doc []).

(** [tag.find_next(nm)]: the first tag called [nm] after [tag] in the
    document, sibling or not. *)
Definition find_next (nm : str) (e : element) : option element :=
  find (has_name nm) (next_elements e).

(** [tag.find_next_sibling(nm)]: the first later sibling that is a tag
    called [nm]; siblings of another kind are passed over. *)
Definition find_next_sibling (nm : str) (e : element) : option element :=
  find (has_name nm) (next_siblings e).

(** The text of a node: its strings, joined. *)
Fixpoint text_of (n : node) : str :=
  match n with
  | NavigableString s => s
  | Comment _ => []
  | Tag _ cs =>
      (fix inside (l : list node) : str :=
         match l with
         | [] => []
         | c :: r => text_of c ++ inside r
         end) cs
  end.

(** [tag.get_text()] and [soup.get_text()]. *)
Definition get_text (e : element) : str := text_of (here e).

Fixpoint soup_get_text (doc : soup) : str :=
  match doc with
  | [] => []
  | c :: r => text_of c ++ soup_get_text r
  end.

(** [bool(x)] for a node: a string is true when it is not empty, a tag
    always. *)
Definition node_truthy (n : node) : bool :=
  match n with
  | NavigableString s | Comment s => truthy s
  | Tag _ _ => true
  end.

(** [s in x] for a node [x]: a substring test on a string; on a tag,
    [Tag.__contains__] looks for [s] among the children, and only a
    child that is a string can equal [s]. *)
Definition node_contains (s : str) (n : node) : bool :=
  match n with
  | NavigableString t | Comment t => contains s t
  | Tag _ cs =>
      existsb (fun c => match c with
                        | NavigableString t | Comment t => eqb t s
                        | Tag _ _ => false
                        end) cs
  end.

End BS4.

Import BS4.

(** ** [extract_and_save_content] *)

(** The function given to [find_all]:
    [tag.name == "img" and tag.next_sibling and
     str(page_number) in tag.next_sibling]. *)
Definition is_page_marker (page_number : Z) (tag : element) : bool :=
  has_name (lit "img") tag &&
  match next_sibling tag with
  | None => false
  | Some sib =>
      node_truthy (here sib) && node_contains (str_of_int page_number) (here sib)
  end.

(** What is left to visit by the [while] loop: the current paragraph and
    its later siblings. *)
Definition left_to_visit (next_sibling : option element) : nat :=
  match next_sibling with
  | None => 0
  | Some e => S (List.length (right e))
  end.

Lemma find_siblings_shorter nm sibs above e :
  find (has_name nm) (siblings sibs above) = Some e ->
  (List.length (right e) < List.length sibs)%nat.
Proof.
  induction sibs as [|n r IH]; simpl; [discriminate|].
  destruct (has_name nm _).
  - intros [= <-]. simpl. lia.
  - intros H. apply IH in H. lia.
Qed.

(** The loop
    [while next_sibling and next_sibling.name == "p": ...]
    of one marker; it returns the file. *)
Equations? while_paragraph (next_sibling : option element) (file : str) : str
  by wf (left_to_visit next_sibling) lt :=
  while_paragraph None file := file;
  while_paragraph (Some e) file with has_name (lit "p") e := {
    | true :=
        let content := get_text e in
        let cleaned_content := clean_content content in
        let file := save_content file cleaned_content in
        while_paragraph (find_next_sibling (lit "p") e) file;
    | false := file }.
Proof.
  unfold find_next_sibling, next_siblings.
  destruct (find _ _) as [e'|] eqn:E; simpl; [|lia].
  apply find_siblings_shorter in E. lia.
Qed.

(** [extract_and_save_content(soup, file, page_number)]; it returns the
    file. *)
Definition extract_and_save_content (doc : soup) (file : str) (page_number : Z)
  : str :=
  let page_marker := find_all (is_page_marker page_number) doc in
  fold_left
    (fun file marker =>
       let next_sibling := find_next (lit "p") marker in
       while_paragraph next_sibling file)
    page_marker file.

(** ** The constants of the script *)

Module Config.
(** [base_url], up to the [{page}] field that ends it. *)
Definition base_url : str := lit "http://book-online.com.ua/read.php?book=38&page=".
Definition output_file : str := lit "book_content.txt".
Definition mobi_file : str := lit "book_content.mobi".
Definition max_pages : Z := 800.
End Config.

(** [base_url.format(page=page_number)]. *)
Definition format_base_url (page_number : Z) : str :=
  Config.base_url ++ str_of_int page_number.

(** ** The page loop

    A request always comes back with a response here: a run that dies of
    a network or parser exception is outside the model. *)

(** What [requests.get] answers: the status code and the body. *)
Record response : Type := Response {
  status_code : Z;
  text : str
}.

(** The variables of the loop, the output file, and what the run has
    printed and requested so far. *)
Record state : Type := State {
  page_number : Z;
  last_content : str;
  empty_page_counter : Z;
  file : str;                  (* the text written to [output_file] *)
  stdout : list str;           (* the lines printed *)
  requests : list str          (* the URLs requested, oldest first *)
}.

(** How an iteration ends: by reaching the end of the body or by
    [break]. *)
Inductive control : Type :=
| Continue (st : state)
| Break (st : state).

Definition print (line : str) (st : state) : state :=
  State (page_number st) (last_content st) (empty_page_counter st)
        (file st) (stdout st ++ [line]) (requests st).

(** A value together with the equation that says where it comes from;
    the loop below keeps the outcome of its tests this way, for the proof
    that it ends. *)
Definition inspect {A : Type} (a : A) : {b : A | a = b} := exist _ a eq_refl.

Section Assembler.

(** The network, the HTML parser and the page ceiling. The script
    requests no URL twice, so the network is a function of the URL. *)
Variable requests_get : str -> response.
Variable html_parser : str -> soup.
Variable max_pages : Z.

(** [fetch_page(url)], with the log of the requests sent. *)
Definition fetch_page (url : str) (sent : list str) : option str * list str :=
  let response := requests_get url in
  (if status_code response =? 200 then Some (text response) else None,
   sent ++ [url]).

(** [if page_content:] is false for [None] and for the empty string. *)
Definition page_truthy (page_content : option str) : bool :=
  match page_content with
  | Some s => truthy s
  | None => false
  end.

(** The condition of line 109:
    [not current_content.strip() or current_content == last_content]. *)
Definition empty_or_repetitive (current_content last_content : str) : bool :=
  negb (truthy (strip current_content)) || eqb current_content last_content.

(** The body of the [while] loop. *)
Definition loop_body (st : state) : control :=
  let url := format_base_url (page_number st) in
  let st := print (lit "Fetching page " ++ str_of_int (page_number st)
                   ++ lit ": " ++ url) st in
  let (page_content, sent) := fetch_page url (requests st) in
  if page_truthy page_content then
    let doc := html_parser (match page_content with Some s => s | None => [] end) in
    let file := extract_and_save_content doc (file st) (page_number st) in
    let current_content := soup_get_text doc in
    if empty_or_repetitive current_content (last_content st) then
      let empty_page_counter := empty_page_counter st + 1 in
      if empty_page_counter >=? 3 then
        Break
          (print (lit "Detected end of book at page "
                  ++ str_of_int (page_number st - 3) ++ lit ". Stopping.")
             (State (page_number st) (last_content st) empty_page_counter
                    file (stdout st) sent))
      else
        Continue (State (page_number st + 1) current_content empty_page_counter
                        file (stdout st) sent)
    else
      Continue (State (page_number st + 1) current_content 0
                      file (stdout st) sent)
  else
    Break
      (print (lit "Page " ++ str_of_int (page_number st)
              ++ lit " does not exist. Stopping.")
         (State (page_number st) (last_content st) (empty_page_counter st)
                (file st) (stdout st) sent)).

Lemma loop_body_advances st st' :
  loop_body st = Continue st' -> page_number st' = page_number st + 1.
Proof.
  unfold loop_body. destruct (fetch_page _ _) as [pc sent].
  destruct (page_truthy pc); [|discriminate].
  destruct (empty_or_repetitive _ _); [destruct (_ >=? 3)|];
    try discriminate; intros [= <-]; reflexivity.
Qed.

(** [while page_number <= max_pages: ...]; the pages left below the
    ceiling decrease with every iteration that does not break. *)
Equations? while_loop (st : state) : state
  by wf (Z.to_nat (max_pages + 1 - page_number st)) lt :=
  while_loop st with inspect (page_number st <=? max_pages) := {
    | exist _ true guard with inspect (loop_body st) := {
        | exist _ (Continue st') body := while_loop st';
        | exist _ (Break st') _ := st' };
    | exist _ false _ := st }.
Proof.
  apply loop_body_advances in body. apply Z.leb_le in guard. lia.
Qed.

(** The state on entry: lines 88 to 90, on a file just opened for
    writing. *)
Definition initial_state : state := State 1 [] 0 [] [] [].

(** The [with] block. *)
Definition parse_book : state := while_loop initial_state.

End Assembler.

(** ** The conversion step and the whole script *)

(** The file system: the content of each path that exists. *)
Definition files := str -> option str.

Definition store (path content : str) (disk : files) : files :=
  fun p => if eqb p path then Some content else disk p.

(** The exceptions [subprocess.run(..., check=True)] raises: the tool
    ran and exited with a status other than zero, or it could not be
    started at all. *)
Inductive exception : Type :=
| CalledProcessError (returncode : Z) (cmd : list str)
| OSError.

(** How a call ends. *)
Inductive completion : Type :=
| Returned
| Raised (e : exception).

(** What the script can change: the disk, the console, and the
    processes it has started (the argument vector of each). *)
Record world : Type := World {
  disk : files;
  console : list str;
  started : list (list str)
}.

Section Script.

Variable requests_get : str -> response.
Variable html_parser : str -> soup.

(** The operating system running an argument vector on a disk: the exit
    status if the program could be started, and the disk it leaves. *)
Variable execute : list str -> files -> option Z * files.

(** [str(e)] for a [CalledProcessError]. *)
Variable str_of_error : Z -> list str -> str.

(** [subprocess.run(args, check=True)]. *)
Definition subprocess_run (args : list str) (w : world) : completion * world :=
  let (status, disk') := execute args (disk w) in
  let w' := World disk' (console w) (started w ++ [args]) in
  match status with
  | Some returncode =>
      if returncode =? 0 then (Returned, w')
      else (Raised (CalledProcessError returncode args), w')
  | None => (Raised OSError, w)
  end.

Definition say (line : str) (w : world) : world :=
  World (disk w) (console w ++ [line]) (started w).

(** [convert_txt_to_mobi(txt_file, mobi_file)]: the [try] with its one
    [except subprocess.CalledProcessError] clause. *)
Definition convert_txt_to_mobi (txt_file mobi_file : str) (w : world)
  : completion * world :=
  match subprocess_run [lit "ebook-convert"; txt_file; mobi_file] w with
  | (Returned, w') =>
      (Returned,
       say (lit "Conversion to " ++ mobi_file ++ lit " completed successfully.") w')
  | (Raised (CalledProcessError returncode cmd), w') =>
      (Returned,
       say (lit "Error during conversion: " ++ str_of_error returncode cmd) w')
  | (Raised e, w') => (Raised e, w')
  end.

(** The module body, from the [with] block to the last line. The output
    file is on disk when the block is left, whichever way the loop
    ended. *)
Definition script (w : world) : completion * world * list str :=
  let st := parse_book requests_get html_parser Config.max_pages in
  let w := World (store Config.output_file (file st) (disk w))
                 (console w ++ stdout st) (started w) in
  let w := say (lit "Book parsing completed.") w in
  let (c, w) := convert_txt_to_mobi Config.output_file Config.mobi_file w in
  (c, w, requests st).

End Script.

(** ** Vocabulary of the properties *)

(** What the script writes for one paragraph. *)
Definition written_for (e : element) : str :=
  clean_content (get_text e) ++ [NEWLINE; NEWLINE].

(** The paragraphs the loop of one marker visits: the first [p] tag after
    the marker, then every later sibling of it that is a [p] tag. *)
Definition paragraphs_after (marker : element) : list element :=
  match find_next (lit "p") marker with
  | None => []
  | Some q => q :: filter (has_name (lit "p")) (next_siblings q)
  end.

(** The paragraph [<p>content</p>] and the marker image [<img>]. *)
Definition paragraph (content : str) : node :=
  Tag (lit "p") [NavigableString content].

Definition img : node := Tag (lit "img") [].

(** The pages [1], ..., [n]. *)
Definition pages (n : nat) : list Z := map Z.of_nat (seq 1 n).

Definition fetching_line (k : Z) : str :=
  lit "Fetching page " ++ str_of_int k ++ lit ": " ++ format_base_url k.

Definition missing_line (k : Z) : str :=
  lit "Page " ++ str_of_int k ++ lit " does not exist. Stopping.".

Definition end_line (k : Z) : str :=
  lit "Detected end of book at page " ++ str_of_int k ++ lit ". Stopping.".

Section Pages.

Variable requests_get : str -> response.
Variable html_parser : str -> soup.

(** What the network answers for page [k], and what the script makes of
    it. *)
Definition page_response (k : Z) : response := requests_get (format_base_url k).

(** Page [k] is there for the loop: status 200 and a body that is not
    empty. *)
Definition page_found (k : Z) : bool :=
  (status_code (page_response k) =? 200) && truthy (text (page_response k)).

Definition page_soup (k : Z) : soup := html_parser (text (page_response k)).

(** The whole-page text of page [k]. *)
Definition page_text (k : Z) : str := soup_get_text (page_soup k).

(** What the extraction writes for page [k]. *)
Definition page_paragraphs (k : Z) : str :=
  extract_and_save_content (page_soup k) [] k.

(** The text page [k] is compared with. *)
Definition previous_text (k : Z) : str :=
  if k =? 1 then [] else page_text (k - 1).

(** Page [k] counts as empty or repeated when it follows page [k - 1]
    (the first page follows the empty text of line 89). *)
Definition strike (k : Z) : bool :=
  empty_or_repetitive (page_text k) (previous_text k).

(** The state after an iteration that found its page and did not stop. *)
Definition processed (st : state) : state :=
  let k := page_number st in
  State (k + 1) (page_text k)
        (if empty_or_repetitive (page_text k) (last_content st)
         then empty_page_counter st + 1 else 0)
        (file st ++ page_paragraphs k)
        (stdout st ++ [fetching_line k])
        (requests st ++ [format_base_url k]).

(** The state after the iteration that stops on the third strike. *)
Definition stopped_at_end (st : state) : state :=
  let k := page_number st in
  State k (last_content st) (empty_page_counter st + 1)
        (file st ++ page_paragraphs k)
        (stdout st ++ [fetching_line k; end_line (k - 3)])
        (requests st ++ [format_base_url k]).

(** The state after the iteration that stops on a page not found. *)
Definition stopped_missing (st : state) : state :=
  let k := page_number st in
  State k (last_content st) (empty_page_counter st) (file st)
        (stdout st ++ [fetching_line k; missing_line k])
        (requests st ++ [format_base_url k]).

(** The length of the run of strikes that ends with page [n]. *)
Fixpoint strikes_in_a_row (n : nat) : Z :=
  match n with
  | O => 0
  | S m => if strike (Z.of_nat m + 1) then strikes_in_a_row m + 1 else 0
  end.

(** The state after the pages [1] to [n], when each was found and none
    stopped the loop. *)
Definition after_pages (n : nat) : state :=
  State (Z.of_nat n + 1) (previous_text (Z.of_nat n + 1)) (strikes_in_a_row n)
        (List.concat (map page_paragraphs (pages n)))
        (map fetching_line (pages n))
        (map format_base_url (pages n)).

End Pages.

(** The state an iteration ends in. *)
Definition state_of (c : control) : state :=
  match c with Continue st | Break st => st end.

(** ** Synthetic page sources

    The pages a test server would hand out, to run the script on. *)

(** The page a URL of the book asks for, among the first twenty. *)
Definition page_of_url (url : str) : option nat :=
  find (fun k => eqb url (format_base_url (Z.of_nat k))) (seq 1 20).

(** The server that answers page [k] with [answer k], and any other URL
    with 404. *)
Definition server (answer : nat -> response) (url : str) : response :=
  match page_of_url url with
  | Some k => answer k
  | None => Response 404 []
  end.

(** A page without markup parses to a single string. *)
Definition plain_text (page_content : str) : soup := [NavigableString page_content].

(** Page [k] reads "page k", for every [k]. *)
Definition all_different : str -> response :=
  server (fun k => Response 200 (lit "page " ++ str_of_int (Z.of_nat k))).

(** Pages 1 to 9 read "page k"; every later page reads "The End". *)
Definition repeated_from_10 : str -> response :=
  server (fun k => Response 200 (if (k <=? 9)%nat
                                 then lit "page " ++ str_of_int (Z.of_nat k)
                                 else lit "The End")).

(** Pages 1 to 9 read "page k"; every later page is a line break. *)
Definition blank_from_10 : str -> response :=
  server (fun k => Response 200 (if (k <=? 9)%nat
                                 then lit "page " ++ str_of_int (Z.of_nat k)
                                 else [NEWLINE])).

(** Pages 1 to 4 read "page k"; page 5 and the rest are not found. *)
Definition missing_from_5 : str -> response :=
  server (fun k => if (k <=? 4)%nat
                   then Response 200 (lit "page " ++ str_of_int (Z.of_nat k))
                   else Response 404 (lit "Not Found")).

(** Page 1 is answered with status 200 and nothing in the body. *)
Definition empty_page_1 : str -> response :=
  server (fun k => Response 200 []).

(** No page is found. *)
Definition nothing_found : str -> response :=
  fun _ => Response 404 (lit "Not Found").

(** No two strings of the list are equal. *)
Fixpoint distinct (l : list str) : bool :=
  match l with
  | [] => true
  | x :: t => negb (existsb (eqb x) t) && distinct t
  end.

(** A tool that always fails with status 1 and leaves the disk alone,
    and a rendering of the exception. *)
Definition failing_tool (args : list str) (d : files) : option Z * files :=
  (Some 1, d).

Definition exit_status_text (returncode : Z) (cmd : list str) : str :=
  lit "non-zero exit status " ++ str_of_int returncode.

Definition empty_world : world := World (fun _ => None) [] [].

(** ** Further vocabulary *)


(** Some tag of the document is called [nm]. *)
Definition has_tag (nm : str) (doc : soup) : bool :=
  existsb (has_name nm) (elements_in doc []).

(** The pages [1] to [n] were all found, and the run of strikes stayed
    below three on each of them. *)
Definition clean_run (requests_get : str -> response) (html_parser : str -> soup)
  (n : nat) : Prop :=
  forall k, (1 <= k <= n)%nat ->
            page_found requests_get (Z.of_nat k) = true /\
            strikes_in_a_row requests_get html_parser k < 3.

(** A system on which [ebook-convert] cannot be started. *)
Definition missing_tool (args : list str) (d : files) : option Z * files :=
  (None, d).

(** A node without a tag below it: a string, an empty tag, or a tag that
    holds one string. *)
Definition flat (n : node) : bool :=
  match n with
  | Tag _ [] => true
  | Tag _ [NavigableString _] => true
  | Tag _ _ => false
  | _ => true
  end.

(** What the script writes for paragraphs with these texts. *)
Definition chunks (texts : list str) : str :=
  List.concat (map (fun t => clean_content t ++ [NEWLINE; NEWLINE]) texts).

(** * Properties *)

(** ** Strings *)

Module PyStrFacts.

Lemma eqb_eq a b : eqb a b = true <-> a = b.
Proof.
  revert b; induction a as [|x a IH]; intros [|y b]; simpl;
    try (split; [discriminate | congruence]); [tauto|].
  rewrite andb_true_iff, N.eqb_eq, IH. split.
  - intros [-> ->]; reflexivity.
  - intros [= -> ->]; auto.
Qed.

Lemma eqb_refl a : eqb a a = true.
Proof. apply eqb_eq; reflexivity. Qed.

Lemma eqb_neq a b : eqb a b = false <-> a <> b.
Proof.
  rewrite <- eqb_eq. destruct (eqb a b); split; congruence.
Qed.

Lemma truthy_false s : truthy s = false <-> s = [].
Proof. destruct s; simpl; split; congruence. Qed.

Lemma lstrip_incl s c : In c (lstrip s) -> In c s.
Proof.
  induction s as [|x s IH]; simpl; [tauto|].
  destruct (isspace x); simpl; tauto.
Qed.

Lemma rstrip_incl s c : In c (rstrip s) -> In c s.
Proof.
  revert c; induction s as [|x s IH]; simpl; [tauto|]; intros c.
  destruct (rstrip s) as [|y t].
  - destruct (isspace x); simpl; tauto.
  - simpl. intros [H|H]; [tauto|]. right. apply IH. exact H.
Qed.

Lemma strip_incl s c : In c (strip s) -> In c s.
Proof. intros H. apply lstrip_incl, rstrip_incl, H. Qed.

(** What [lstrip] returns does not start with a space. *)
Lemma lstrip_head s :
  match lstrip s with [] => True | c :: _ => isspace c = false end.
Proof.
  induction s as [|x s IH]; simpl; [exact I|].
  destruct (isspace x) eqn:E; [exact IH | exact E].
Qed.

Lemma lstrip_fixed s :
  match s with [] => True | c :: _ => isspace c = false end -> lstrip s = s.
Proof. destruct s as [|c t]; simpl; [reflexivity|]. intros ->. reflexivity. Qed.

(** [rstrip] keeps a first character that is not a space. *)
Lemma rstrip_head c t :
  isspace c = false -> exists t', rstrip (c :: t) = c :: t'.
Proof.
  intros E. simpl. rewrite E. destruct (rstrip t); eauto.
Qed.

Lemma rstrip_idempotent s : rstrip (rstrip s) = rstrip s.
Proof.
  induction s as [|c t IH]; simpl; [reflexivity|].
  destruct (rstrip t) as [|y t'] eqn:E.
  - destruct (isspace c) eqn:Ec; simpl; [reflexivity|]. rewrite Ec. reflexivity.
  - change (rstrip (c :: y :: t')) with
      (match rstrip (y :: t') with
       | [] => if isspace c then [] else [c]
       | t'' => c :: t''
       end).
    rewrite IH. reflexivity.
Qed.

Lemma strip_idempotent s : strip (strip s) = strip s.
Proof.
  unfold strip.
  assert (H : lstrip (rstrip (lstrip s)) = rstrip (lstrip s)).
  { apply lstrip_fixed. pose proof (lstrip_head s) as Hh.
    destruct (lstrip s) as [|c t]; simpl; [exact I|].
    destruct (rstrip_head c t Hh) as [t' Ht]. simpl in Ht. rewrite Ht. exact Hh. }
  rewrite H. apply rstrip_idempotent.
Qed.

(** A match of [old] at the head of [s] puts every character of [old]
    into [s]. *)
Lemma startswith_incl old s c : startswith old s = true -> In c old -> In c s.
Proof.
  revert s; induction old as [|x old IH]; intros [|y s]; simpl;
    try tauto; try discriminate.
  rewrite andb_true_iff, N.eqb_eq. intros [-> Hs] [->|Hc]; auto.
Qed.

(** Nothing is replaced in a string that lacks a character of [old]. *)
Lemma replace_from_absent old new c s :
  In c old -> ~ In c s -> replace_from old new 0 s = s.
Proof.
  intros Hc. induction s as [|x s IH]; simpl; [reflexivity|]. intros Hs.
  destruct (N.eqb_spec x x) as [_|Hx]; [|congruence].
  destruct (startswith old (x :: s)) eqn:E.
  - exfalso. apply Hs. exact (startswith_incl _ _ c E Hc).
  - rewrite IH; [reflexivity|]. tauto.
Qed.

(** Replacing a one-character [old] leaves none of it, if [new] has
    none. *)
Lemma replace_from_single a new s :
  ~ In a new -> ~ In a (replace_from [a] new 0 s).
Proof.
  intros Hn. induction s as [|x s IH]; simpl; [tauto|].
  destruct (N.eqb_spec a x) as [->|Hx]; simpl.
  - rewrite in_app_iff. tauto.
  - intros [H|H]; [congruence | tauto].
Qed.

(** A prefix without the first character of [old] is copied. *)
Lemma replace_from_prefix a old new x s :
  ~ In a x ->
  replace_from (a :: old) new 0 (x ++ s) = x ++ replace_from (a :: old) new 0 s.
Proof.
  induction x as [|c x IH]; simpl; [reflexivity|]. intros Hx.
  destruct (N.eqb_spec a c) as [->|Hc]; [tauto|]. simpl.
  rewrite IH; [reflexivity|]. tauto.
Qed.

End PyStrFacts.

Import PyStrFacts.

(** ** [clean_content] *)

(** No non-breaking space is left in cleaned text. *)
Lemma clean_content_no_nbsp s : ~ In NBSP (clean_content s).
Proof.
  unfold clean_content. intros H. apply strip_incl in H.
  revert H. apply replace_from_single. simpl. intros [H|[]]. discriminate H.
Qed.

(** Text without a non-breaking space is only stripped. *)
Lemma clean_content_plain s : ~ In NBSP s -> clean_content s = strip s.
Proof.
  intros H. unfold clean_content, replace.
  rewrite (replace_from_absent [EN_DASH; NBSP] [] NBSP s); simpl; auto.
  rewrite (replace_from_absent [NBSP] [SPACE] NBSP s); simpl; auto.
Qed.

(** A dash and non-breaking space between two runs of plain text are
    deleted, wherever they stand. *)
Lemma clean_content_deletes_everywhere x y :
  ~ In EN_DASH x -> ~ In NBSP x -> ~ In NBSP y -> ~ In EN_DASH y ->
  clean_content (x ++ [EN_DASH; NBSP] ++ y) = strip (x ++ y).
Proof.
  intros Hdx Hnx Hny Hdy. unfold clean_content, replace.
  rewrite replace_from_prefix by exact Hdx.
  assert (E : replace_from [EN_DASH; NBSP] [] 0 ([EN_DASH; NBSP] ++ y) = y).
  { simpl. apply (replace_from_absent [EN_DASH; NBSP] [] EN_DASH y); simpl; auto. }
  rewrite E.
  rewrite (replace_from_absent [NBSP] [SPACE] NBSP (x ++ y)); simpl; auto.
  rewrite in_app_iff. tauto.
Qed.

(** C3 (code at the failing input). The comment of [clean_content]
    speaks of the dash at the beginning of lines, and the specification
    has a dash followed by a non-breaking space deleted only where it
    opens the content. The code deletes the pair in the middle of a
    paragraph too: for "a", dash, non-breaking space, "b" it returns "ab",
    where the specification keeps the dash and turns the non-breaking
    space into a space. *)
Theorem clean_content_inner_dash :
  clean_content (lit "a" ++ [EN_DASH; NBSP] ++ lit "b") = lit "ab" /\
  clean_content (lit "a" ++ [EN_DASH; NBSP] ++ lit "b")
    <> lit "a" ++ [EN_DASH; SPACE] ++ lit "b".
Proof.
  split; [reflexivity|]. vm_compute. discriminate.
Qed.

(** C4. [clean_content] is idempotent: cleaning cleaned text changes
    nothing; cleaned text holds no non-breaking space, so it does not
    start with a dash followed by one either. *)
Theorem clean_content_idempotent (s : str) :
  clean_content (clean_content s) = clean_content s /\
  ~ In NBSP (clean_content s) /\
  startswith [EN_DASH; NBSP] (clean_content s) = false.
Proof.
  pose proof (clean_content_no_nbsp s) as Hn. split; [|split].
  - rewrite clean_content_plain by exact Hn.
    unfold clean_content. apply strip_idempotent.
  - exact Hn.
  - destruct (startswith _ _) eqn:E; [|reflexivity].
    exfalso. apply Hn. apply (startswith_incl _ _ NBSP E). simpl. auto.
Qed.

(** ** [extract_and_save_content] *)

Lemma while_paragraph_some e file :
  while_paragraph (Some e) file =
  if has_name (lit "p") e
  then while_paragraph (find_next_sibling (lit "p") e)
         (save_content file (clean_content (get_text e)))
  else file.
Proof.
  simp while_paragraph. destruct (has_name (lit "p") e); reflexivity.
Qed.

(** Started on the first [p] tag of a run of siblings, the loop writes
    every [p] tag of the run, in order. *)
Lemma while_paragraph_siblings sibs above file :
  while_paragraph (find (has_name (lit "p")) (siblings sibs above)) file =
  file ++ List.concat (map written_for
                      (filter (has_name (lit "p")) (siblings sibs above))).
Proof.
  revert file; induction sibs as [|n r IH]; intros file; simpl.
  - simp while_paragraph. rewrite app_nil_r. reflexivity.
  - destruct (has_name (lit "p") (Element n r above)) eqn:E.
    + rewrite while_paragraph_some, E. unfold find_next_sibling, next_siblings.
      simpl. rewrite IH. unfold save_content, written_for, get_text. simpl.
      rewrite <- !app_assoc. reflexivity.
    + apply IH.
Qed.

Lemma while_paragraph_find_next marker file :
  while_paragraph (find_next (lit "p") marker) file =
  file ++ List.concat (map written_for (paragraphs_after marker)).
Proof.
  unfold paragraphs_after. destruct (find_next (lit "p") marker) as [q|] eqn:E.
  - apply find_some in E. destruct E as [_ E].
    rewrite while_paragraph_some, E. unfold find_next_sibling, next_siblings.
    rewrite while_paragraph_siblings. unfold save_content. simpl.
    unfold written_for at 2. rewrite <- !app_assoc. reflexivity.
  - simp while_paragraph. rewrite app_nil_r. reflexivity.
Qed.

Lemma extract_markers markers file :
  fold_left (fun file marker => while_paragraph (find_next (lit "p") marker) file)
            markers file =
  file ++ List.concat (map written_for (flat_map paragraphs_after markers)).
Proof.
  revert file; induction markers as [|m ms IH]; intros file; simpl.
  - rewrite app_nil_r. reflexivity.
  - rewrite IH, while_paragraph_find_next, map_app, List.concat_app, app_assoc.
    reflexivity.
Qed.

(** The file only grows, by what the markers of the page yield. *)
Lemma extract_and_save_content_appends doc file page :
  extract_and_save_content doc file page =
  file ++ extract_and_save_content doc [] page.
Proof.
  unfold extract_and_save_content. rewrite !extract_markers. reflexivity.
Qed.

(** Which tags of a page are markers. *)
Lemma marker_after_label r a :
  is_page_marker 7 (Element img (NavigableString (lit "7") :: r) a) = true.
Proof. reflexivity. Qed.

Lemma paragraph_is_no_marker page cs r a :
  is_page_marker page (Element (Tag (lit "p") cs) r a) = false.
Proof. reflexivity. Qed.

Lemma last_is_no_marker page nm cs a :
  is_page_marker page (Element (Tag nm cs) [] a) = false.
Proof. unfold is_page_marker. simpl. apply andb_false_r. Qed.

(** C2 (what fails). Marker "7", three paragraphs, a [div], and one more
    paragraph after the [div]: the specification has the extraction stop
    at the [div] with three paragraphs written; the code writes the fourth
    too. *)
Lemma extract_passes_over_non_paragraph :
  let doc := [img; NavigableString (lit "7");
              paragraph (lit "a"); paragraph (lit "b"); paragraph (lit "c");
              Tag (lit "div") []; paragraph (lit "d")] in
  let nl := [NEWLINE; NEWLINE] in
  extract_and_save_content doc [] 7 =
    lit "a" ++ nl ++ lit "b" ++ nl ++ lit "c" ++ nl ++ lit "d" ++ nl /\
  extract_and_save_content doc [] 7 <>
    lit "a" ++ nl ++ lit "b" ++ nl ++ lit "c" ++ nl.
Proof.
  split; [reflexivity|]. vm_compute. discriminate.
Qed.

(** C2 (amended). For every page and every marker of it, the extraction
    writes the first paragraph found after the marker and then every later
    sibling of that paragraph that is a paragraph, in document order;
    siblings of another kind are passed over and do not end the walk. So
    with marker "7", three sibling paragraphs and then an element that is
    not a paragraph, nothing after it, exactly the three paragraphs are
    written, in order. *)
Theorem extract_and_save_content_paragraphs :
  (forall doc file page,
      extract_and_save_content doc file page =
      file ++ List.concat (map written_for
                          (flat_map paragraphs_after
                                    (find_all (is_page_marker page) doc)))) /\
  (forall t1 t2 t3 other file,
      eqb other (lit "p") = false ->
      extract_and_save_content
        [img; NavigableString (lit "7");
         paragraph t1; paragraph t2; paragraph t3; Tag other []] file 7 =
      file ++ (clean_content t1 ++ [NEWLINE; NEWLINE])
           ++ (clean_content t2 ++ [NEWLINE; NEWLINE])
           ++ (clean_content t3 ++ [NEWLINE; NEWLINE])).
Proof.
  split.
  - intros. unfold extract_and_save_content. apply extract_markers.
  - intros t1 t2 t3 other file Hother.
    unfold extract_and_save_content. rewrite extract_markers. f_equal.
    unfold find_all, img, paragraph.
    cbn [elements_in elements_of app filter name here].
    rewrite marker_after_label, !paragraph_is_no_marker, last_is_no_marker.
    cbn [flat_map app]. unfold paragraphs_after, find_next.
    cbn -[clean_content lit eqb]. unfold has_name at 1. cbn [name here].
    rewrite eqb_refl. cbn [next_siblings siblings right up filter name here].
    rewrite eqb_refl, Hother. unfold written_for, get_text.
    cbn -[clean_content lit]. rewrite !app_nil_r.
    rewrite <- !app_assoc. reflexivity.
Qed.

(** Three paragraphs and a [div]. *)
Lemma extract_and_save_content_paragraphs_witness :
  eqb (lit "div") (lit "p") = false /\
  extract_and_save_content
    [img; NavigableString (lit "7");
     paragraph (lit "one"); paragraph (lit "two"); paragraph (lit "three");
     Tag (lit "div") []] [] 7 =
  [] ++ (clean_content (lit "one") ++ [NEWLINE; NEWLINE])
     ++ (clean_content (lit "two") ++ [NEWLINE; NEWLINE])
     ++ (clean_content (lit "three") ++ [NEWLINE; NEWLINE]).
Proof.
  split; [reflexivity|].
  apply (proj2 extract_and_save_content_paragraphs). reflexivity.
Defined.

(** ** The page loop *)

Section Loop.

Variable requests_get : str -> response.
Variable html_parser : str -> soup.
Variable max_pages : Z.

Local Abbreviation body := (loop_body requests_get html_parser).
Local Abbreviation loop := (while_loop requests_get html_parser max_pages).
Local Abbreviation found := (page_found requests_get).
Local Abbreviation text_at := (page_text requests_get html_parser).
Local Abbreviation paragraphs_at := (page_paragraphs requests_get html_parser).
Local Abbreviation go_on := (processed requests_get html_parser).
Local Abbreviation stop_end := (stopped_at_end requests_get html_parser).
Local Abbreviation strike_at := (strike requests_get html_parser).

(** One turn of the [while]. *)
Lemma while_loop_step st :
  loop st =
  if page_number st <=? max_pages then
    match body st with
    | Continue st' => loop st'
    | Break st' => st'
    end
  else st.
Proof.
  funelim (while_loop requests_get html_parser max_pages st);
    match goal with H : (_ <=? _) = _ |- _ => rewrite H end;
    try match goal with H : loop_body _ _ _ = _ |- _ => rewrite H end;
    reflexivity.
Qed.

(** The body on a page that is not found: status other than 200, or an
    empty body. *)
Lemma loop_body_missing st :
  found (page_number st) = false ->
  body st = Break (stopped_missing st).
Proof.
  unfold page_found, page_response, loop_body, fetch_page, stopped_missing.
  intros H.
  assert (E : forall a b, (stdout st ++ [a]) ++ [b] = stdout st ++ [a; b])
    by (intros; rewrite <- app_assoc; reflexivity).
  destruct (status_code _ =? 200); cbn [andb page_truthy] in *;
    [rewrite H|]; unfold print;
    cbn [stdout requests file page_number last_content empty_page_counter];
    rewrite E; reflexivity.
Qed.

(** The body on a page that is found. *)
Lemma loop_body_found st :
  found (page_number st) = true ->
  body st =
  if empty_or_repetitive (text_at (page_number st)) (last_content st)
     && (empty_page_counter st + 1 >=? 3)
  then Break (stop_end st)
  else Continue (go_on st).
Proof.
  unfold page_found, page_response, loop_body, fetch_page.
  intros H. apply andb_true_iff in H. destruct H as [H1 H2].
  assert (E : forall a b, (stdout st ++ [a]) ++ [b] = stdout st ++ [a; b])
    by (intros; rewrite <- app_assoc; reflexivity).
  rewrite H1. cbn [page_truthy]. rewrite H2.
  unfold processed, stopped_at_end, page_text, page_paragraphs, page_soup,
    page_response.
  rewrite extract_and_save_content_appends.
  destruct (empty_or_repetitive _ _); cbn [andb]; [|reflexivity].
  destruct (_ >=? 3); [|reflexivity].
  unfold print.
  cbn [stdout requests file page_number last_content empty_page_counter].
  rewrite E. reflexivity.
Qed.

(** The rule of the loop: what holds on entry and is kept by every
    iteration that goes on, holds when the loop is left. *)
Lemma while_loop_rule (Inv Post : state -> Prop) :
  (forall st, Inv st -> max_pages < page_number st -> Post st) ->
  (forall st st', Inv st -> page_number st <= max_pages ->
                  body st = Continue st' -> Inv st') ->
  (forall st st', Inv st -> page_number st <= max_pages ->
                  body st = Break st' -> Post st') ->
  forall st, Inv st -> Post (loop st).
Proof.
  intros Hexit Hcont Hbreak st.
  remember (Z.to_nat (max_pages + 1 - page_number st)) as n eqn:En.
  revert st En. induction n as [n IH] using lt_wf_ind. intros st En Hinv.
  rewrite while_loop_step. destruct (Z.leb_spec (page_number st) max_pages) as [Hle|Hgt].
  - destruct (body st) as [st'|st'] eqn:Hb.
    + apply (IH (Z.to_nat (max_pages + 1 - page_number st'))); eauto.
      apply loop_body_advances in Hb. lia.
    + eauto.
  - eauto.
Qed.

Lemma loop_body_continue st st' :
  body st = Continue st' ->
  found (page_number st) = true /\ st' = go_on st.
Proof.
  destruct (found (page_number st)) eqn:E.
  - rewrite (loop_body_found st E). destruct (_ && _); [discriminate|].
    intros [= <-]. auto.
  - rewrite (loop_body_missing st E). discriminate.
Qed.

Lemma loop_body_break st st' :
  body st = Break st' ->
  (found (page_number st) = false /\ st' = stopped_missing st) \/
  (found (page_number st) = true /\
   empty_or_repetitive (text_at (page_number st)) (last_content st) = true /\
   3 <= empty_page_counter st + 1 /\ st' = stop_end st).
Proof.
  destruct (found (page_number st)) eqn:E.
  - rewrite (loop_body_found st E).
    destruct (empty_or_repetitive _ _) eqn:Es; cbn [andb]; [|discriminate].
    destruct (Z.geb_spec (empty_page_counter st + 1) 3); [|discriminate].
    intros [= <-]. right. repeat split; auto; lia.
  - rewrite (loop_body_missing st E). intros [= <-]. auto.
Qed.

(** Every iteration sends one request, for the current page. *)
Lemma loop_body_requests st :
  requests (state_of (body st)) = requests st ++ [format_base_url (page_number st)].
Proof.
  destruct (found (page_number st)) eqn:E.
  - rewrite (loop_body_found st E). destruct (_ && _); reflexivity.
  - rewrite (loop_body_missing st E). reflexivity.
Qed.

(** The loop over an iteration that goes on, and over the two that
    stop. *)
Lemma loop_go_on st :
  page_number st <= max_pages ->
  found (page_number st) = true ->
  empty_or_repetitive (text_at (page_number st)) (last_content st)
    && (empty_page_counter st + 1 >=? 3) = false ->
  loop st = loop (go_on st).
Proof.
  intros Hle Hf Hs. rewrite while_loop_step, (loop_body_found st Hf), Hs.
  apply Z.leb_le in Hle. rewrite Hle. reflexivity.
Qed.

Lemma loop_stop_end st :
  page_number st <= max_pages ->
  found (page_number st) = true ->
  empty_or_repetitive (text_at (page_number st)) (last_content st)
    && (empty_page_counter st + 1 >=? 3) = true ->
  loop st = stop_end st.
Proof.
  intros Hle Hf Hs. rewrite while_loop_step, (loop_body_found st Hf), Hs.
  apply Z.leb_le in Hle. rewrite Hle. reflexivity.
Qed.

Lemma loop_stop_missing st :
  page_number st <= max_pages ->
  found (page_number st) = false ->
  loop st = stopped_missing st.
Proof.
  intros Hle Hf. rewrite while_loop_step, (loop_body_missing st Hf).
  apply Z.leb_le in Hle. rewrite Hle. reflexivity.
Qed.

Lemma loop_exit st : max_pages < page_number st -> loop st = st.
Proof.
  intros H. rewrite while_loop_step.
  destruct (Z.leb_spec (page_number st) max_pages); [lia | reflexivity].
Qed.

Lemma last_of_two (l : list str) a b d : last (l ++ [a; b]) d = b.
Proof.
  replace (l ++ [a; b]) with ((l ++ [a]) ++ [b])
    by (rewrite <- app_assoc; reflexivity).
  apply last_last.
Qed.

Lemma pages_succ n : pages (S n) = pages n ++ [Z.of_nat n + 1].
Proof.
  unfold pages. rewrite seq_S, map_app. simpl. do 2 f_equal. lia.
Qed.

(** One more page that is found and does not stop the loop. *)
Lemma processed_after_pages n :
  go_on (after_pages requests_get html_parser n) =
  after_pages requests_get html_parser (S n).
Proof.
  unfold processed, after_pages.
  cbn [page_number last_content empty_page_counter file stdout requests].
  rewrite pages_succ, !map_app, List.concat_app. cbn [map List.concat].
  rewrite app_nil_r. replace (Z.of_nat (S n)) with (Z.of_nat n + 1) by lia.
  f_equal. unfold previous_text.
  destruct (Z.eqb_spec (Z.of_nat n + 1 + 1) 1); [lia|].
  f_equal. lia.
Qed.

(** The pages [1] to [n] found, never three strikes in a row, all below
    the ceiling: the loop gets through them. *)
Lemma loop_after_pages n :
  Z.of_nat n <= max_pages ->
  (forall k, (1 <= k <= n)%nat ->
             found (Z.of_nat k) = true /\
             strikes_in_a_row requests_get html_parser k < 3) ->
  loop initial_state = loop (after_pages requests_get html_parser n).
Proof.
  induction n as [|n IH]; intros Hmax Hp.
  - reflexivity.
  - rewrite IH by (try lia; intros k Hk; apply Hp; lia).
    destruct (Hp (S n)) as [Hf Hs]; [lia|].
    rewrite <- (processed_after_pages n). apply loop_go_on.
    + cbn [page_number after_pages]. lia.
    + cbn [page_number after_pages].
      replace (Z.of_nat n + 1) with (Z.of_nat (S n)) by lia. exact Hf.
    + cbn [page_number last_content empty_page_counter after_pages].
      cbn [strikes_in_a_row] in Hs. fold (strike_at (Z.of_nat n + 1)).
      destruct (strike_at (Z.of_nat n + 1)); [|reflexivity].
      destruct (Z.geb_spec (strikes_in_a_row requests_get html_parser n + 1) 3);
        [lia | reflexivity].
Qed.

(** Without a strike the run of strikes is empty. *)
Lemma no_strike_no_run n :
  (forall k, 1 <= k <= Z.of_nat n -> strike_at k = false) ->
  strikes_in_a_row requests_get html_parser n = 0.
Proof.
  destruct n as [|n]; [reflexivity|]. intros H. cbn [strikes_in_a_row].
  rewrite H by lia. reflexivity.
Qed.

(** A page whose text is not blank and differs from the text before it
    is no strike. *)
Lemma empty_or_repetitive_iff cur last :
  empty_or_repetitive cur last = true <-> strip cur = [] \/ cur = last.
Proof.
  unfold empty_or_repetitive.
  rewrite orb_true_iff, negb_true_iff, truthy_false, eqb_eq. tauto.
Qed.

Lemma empty_or_repetitive_false cur last :
  strip cur <> [] -> cur <> last -> empty_or_repetitive cur last = false.
Proof.
  intros H1 H2. destruct (empty_or_repetitive cur last) eqn:E; [|reflexivity].
  apply empty_or_repetitive_iff in E. tauto.
Qed.

(** *** Order of the pages *)

(** C7. The page number starts at 1; an iteration that goes on adds
    exactly 1 to it, and no iteration lowers it; every iteration requests
    the current page, once; so the requests of a run are those for the
    pages 1, 2, ..., n, in this order, without a gap or a repeat. *)
Theorem pages_requested_in_order :
  page_number initial_state = 1 /\
  (forall st st', body st = Continue st' ->
                  page_number st' = page_number st + 1) /\
  (forall st, page_number st <= page_number (state_of (body st))) /\
  (forall st, requests (state_of (body st)) =
              requests st ++ [format_base_url (page_number st)]) /\
  exists n : nat,
    requests (parse_book requests_get html_parser max_pages) =
    map format_base_url (pages n).
Proof.
  split; [reflexivity|]. split; [apply loop_body_advances|].
  split; [|split; [apply loop_body_requests|]].
  - intros st. destruct (body st) as [st'|st'] eqn:E; cbn [state_of].
    + apply loop_body_advances in E. lia.
    + apply loop_body_break in E.
      destruct E as [[_ ->]|[_ [_ [_ ->]]]]; cbn; lia.
  - unfold parse_book.
    apply (while_loop_rule
             (fun st => exists n : nat,
                  page_number st = Z.of_nat n + 1 /\
                  requests st = map format_base_url (pages n))
             (fun st => exists n : nat,
                  requests st = map format_base_url (pages n))).
    + intros st [n [_ Hr]] _. eauto.
    + intros st st' [n [Hp Hr]] _ Hb. exists (S n).
      pose proof (loop_body_requests st) as Hq. rewrite Hb in Hq.
      cbn [state_of] in Hq. apply loop_body_advances in Hb.
      rewrite Hq, Hr, Hp, Hb, pages_succ, map_app. split; [lia | reflexivity].
    + intros st st' [n [Hp Hr]] _ Hb. exists (S n).
      pose proof (loop_body_requests st) as Hq. rewrite Hb in Hq.
      cbn [state_of] in Hq.
      rewrite Hq, Hr, Hp, pages_succ, map_app. reflexivity.
    + exists O. split; reflexivity.
Qed.

(** *** The ceiling *)

(** The loop is a total function of the state it starts in, so it always
    ends. It never sends more than [max_pages] requests. *)
Lemma requests_bounded :
  Z.of_nat (List.length
              (requests (parse_book requests_get html_parser max_pages)))
  <= Z.max 0 max_pages.
Proof.
  unfold parse_book.
  apply (while_loop_rule
           (fun st => exists n : nat,
                page_number st = Z.of_nat n + 1 /\
                List.length (requests st) = n /\
                Z.of_nat n <= Z.max 0 max_pages)
           (fun st => Z.of_nat (List.length (requests st)) <= Z.max 0 max_pages)).
  - intros st [n [_ [Hr Hn]]] _. rewrite Hr. exact Hn.
  - intros st st' [n [Hp [Hr Hn]]] Hle Hb. exists (S n).
    pose proof (loop_body_requests st) as Hq. rewrite Hb in Hq.
    cbn [state_of] in Hq. apply loop_body_advances in Hb.
    rewrite Hq, length_app, Hr, Hb, Hp. cbn [List.length]. lia.
  - intros st st' [n [Hp [Hr Hn]]] Hle Hb.
    pose proof (loop_body_requests st) as Hq. rewrite Hb in Hq.
    cbn [state_of] in Hq. rewrite Hq, length_app, Hr. cbn [List.length]. lia.
  - exists O. cbn. repeat split; lia.
Qed.

(** Pages 1 to [n] with [n = max_pages], all found, none a strike: the
    loop processes them and leaves at the ceiling. *)
Lemma loop_reaches_ceiling n :
  max_pages = Z.of_nat n ->
  (forall k, 1 <= k <= max_pages -> found k = true /\ strike_at k = false) ->
  parse_book requests_get html_parser max_pages =
  after_pages requests_get html_parser n /\
  strikes_in_a_row requests_get html_parser n = 0.
Proof.
  intros Hn Hp. unfold parse_book.
  assert (Hrun : forall k, (k <= n)%nat ->
                           strikes_in_a_row requests_get html_parser k = 0).
  { intros k Hk. apply no_strike_no_run. intros j Hj. apply Hp. lia. }
  split; [|apply Hrun; lia].
  rewrite (loop_after_pages n).
  - apply loop_exit. cbn [page_number after_pages]. lia.
  - lia.
  - intros k Hk. split; [apply Hp; lia|]. rewrite Hrun by lia. lia.
Qed.

(** A page with text that is not blank and differs from the text before
    it is no strike. *)
Lemma strike_false k :
  strip (text_at k) <> [] ->
  text_at k <> previous_text requests_get html_parser k ->
  strike_at k = false.
Proof. apply empty_or_repetitive_false. Qed.

(** C6. The loop always ends (it is a total function) and sends at most
    [max_pages] requests, whatever the pages are. With [max_pages = 3] and
    pages that are all found, none blank, none equal to the page before
    it, exactly the pages 1, 2 and 3 are requested and processed; the loop
    is left with the page number at 4 and no stop message printed. *)
Theorem loop_stops_at_max_pages :
  Z.of_nat (List.length
              (requests (parse_book requests_get html_parser max_pages)))
  <= Z.max 0 max_pages /\
  (max_pages = 3 ->
   (forall k, 1 <= k <= 3 ->
              found k = true /\ strip (text_at k) <> [] /\
              text_at k <> previous_text requests_get html_parser k) ->
   let r := parse_book requests_get html_parser max_pages in
   requests r = map format_base_url [1; 2; 3] /\
   page_number r = 4 /\
   stdout r = map fetching_line [1; 2; 3] /\
   file r = paragraphs_at 1 ++ paragraphs_at 2 ++ paragraphs_at 3).
Proof.
  split; [apply requests_bounded|]. intros Hmax Hp r.
  destruct (loop_reaches_ceiling 3) as [Hr _].
  - exact Hmax.
  - intros k Hk. rewrite Hmax in Hk. destruct (Hp k Hk) as [Hf [Hb Hd]].
    split; [exact Hf | apply strike_false; assumption].
  - subst r. rewrite Hr. unfold after_pages. cbn -[format_base_url fetching_line].
    rewrite app_nil_r. repeat split; reflexivity.
Qed.

(** *** The repetition check *)

(** C8. The check is true exactly when the whole-page text is blank or
    equal, character for character, to the text kept from the page
    before. On a page that is found, the counter is then one more than it
    was; otherwise it is zero. Whenever the loop goes on, the text of the
    current page is what the next comparison is made with. Texts that
    differ in white space only are different. (On the third strike the
    loop is left before line 116, so the text kept stays as it was; no
    comparison follows.) *)
Theorem repetition_check_is_exact :
  (forall cur last,
      empty_or_repetitive cur last = true <-> strip cur = [] \/ cur = last) /\
  (forall st,
      found (page_number st) = true ->
      let cur := text_at (page_number st) in
      (strip cur = [] \/ cur = last_content st ->
       empty_page_counter (state_of (body st)) = empty_page_counter st + 1) /\
      (strip cur <> [] -> cur <> last_content st ->
       empty_page_counter (state_of (body st)) = 0) /\
      (forall st', body st = Continue st' -> last_content st' = cur) /\
      (forall st', body st = Break st' -> last_content st' = last_content st)) /\
  empty_or_repetitive (lit "a b") (lit "a  b") = false.
Proof.
  split; [apply empty_or_repetitive_iff|]. split; [|reflexivity].
  intros st Hf cur. subst cur. rewrite (loop_body_found st Hf).
  split; [|split; [|split]].
  - intros H. apply empty_or_repetitive_iff in H. rewrite H. cbn [andb].
    destruct (_ >=? 3); cbn [state_of stopped_at_end empty_page_counter processed];
      [reflexivity|]. rewrite H. reflexivity.
  - intros H1 H2. rewrite (empty_or_repetitive_false _ _ H1 H2).
    cbn [andb state_of processed empty_page_counter].
    rewrite (empty_or_repetitive_false _ _ H1 H2). reflexivity.
  - intros st'. destruct (_ && _); [discriminate|]. intros [= <-]. reflexivity.
  - intros st'. destruct (_ && _); [|discriminate]. intros [= <-]. reflexivity.
Qed.

(** *** A page that is not there *)

(** C5. When the request for the current page is answered with a status
    other than 200, the loop ends at once: nothing is written, no further
    page is requested, the page number stays. With pages 1 to 4 found and
    never three strikes in a row, and page 5 answered with another status,
    the requests are those for pages 1 to 5 and the file holds the
    paragraphs of pages 1 to 4 and nothing of page 5. *)
Theorem missing_page_stops_loop :
  (forall st,
      page_number st <= max_pages ->
      status_code (page_response requests_get (page_number st)) <> 200 ->
      loop st = stopped_missing st /\
      file (loop st) = file st /\
      requests (loop st) = requests st ++ [format_base_url (page_number st)] /\
      stdout (loop st) =
        stdout st ++ [fetching_line (page_number st);
                      missing_line (page_number st)]) /\
  (5 <= max_pages ->
   (forall k, (1 <= k <= 4)%nat ->
              found (Z.of_nat k) = true /\
              strikes_in_a_row requests_get html_parser k < 3) ->
   status_code (page_response requests_get 5) <> 200 ->
   let r := parse_book requests_get html_parser max_pages in
   requests r = map format_base_url [1; 2; 3; 4; 5] /\
   file r = paragraphs_at 1 ++ paragraphs_at 2 ++ paragraphs_at 3
            ++ paragraphs_at 4 /\
   stdout r = map fetching_line [1; 2; 3; 4]
              ++ [fetching_line 5; missing_line 5] /\
   page_number r = 5).
Proof.
  assert (Hmiss : forall k, status_code (page_response requests_get k) <> 200 ->
                            found k = false).
  { intros k Hk. unfold page_found. apply Z.eqb_neq in Hk. rewrite Hk. reflexivity. }
  split.
  - intros st Hle Hs. rewrite (loop_stop_missing st Hle (Hmiss _ Hs)).
    repeat split; reflexivity.
  - intros Hmax Hp H5 r. subst r. unfold parse_book.
    rewrite (loop_after_pages 4) by (try lia; exact Hp).
    rewrite loop_stop_missing.
    + unfold stopped_missing, after_pages.
      cbn -[format_base_url fetching_line missing_line].
      rewrite !app_nil_r. repeat split; reflexivity.
    + cbn [page_number after_pages]. lia.
    + apply Hmiss. exact H5.
Qed.

(** *** Three strikes *)

(** C1 (amended). Whenever the third strike in a row falls on a page,
    the loop ends there and the page reported is the current page number
    minus 3. With pages 1 to 12 found, pages 1 to 9 not blank and each
    different from the page before it, and pages 10, 11 and 12 carrying
    one and the same text that is blank or is the text of page 9, the loop
    ends on page 12, reports page 9, and has requested pages 1 to 12 and
    no other. *)
Theorem third_strike_reports_three_back :
  (forall st,
      page_number st <= max_pages ->
      found (page_number st) = true ->
      empty_or_repetitive (text_at (page_number st)) (last_content st) = true ->
      3 <= empty_page_counter st + 1 ->
      loop st = stop_end st /\
      stdout (loop st) =
        stdout st ++ [fetching_line (page_number st);
                      end_line (page_number st - 3)] /\
      requests (loop st) = requests st ++ [format_base_url (page_number st)]) /\
  (12 <= max_pages ->
   (forall k, 1 <= k <= 12 -> found k = true) ->
   (forall k, 1 <= k <= 9 ->
              strip (text_at k) <> [] /\
              text_at k <> previous_text requests_get html_parser k) ->
   text_at 11 = text_at 10 -> text_at 12 = text_at 10 ->
   strip (text_at 10) = [] \/ text_at 10 = text_at 9 ->
   let r := parse_book requests_get html_parser max_pages in
   page_number r = 12 /\
   last (stdout r) [] = lit "Detected end of book at page 9. Stopping." /\
   requests r = map format_base_url (pages 12)).
Proof.
  split.
  - intros st Hle Hf Hs Hc. rewrite (loop_stop_end st Hle Hf).
    + repeat split; reflexivity.
    + rewrite Hs. cbn [andb]. apply Z.geb_le. lia.
  - intros Hmax Hf Hfresh H11 H12 H10 r. subst r. unfold parse_book.
    assert (Hrun : forall k, (k <= 9)%nat ->
                             strikes_in_a_row requests_get html_parser k = 0).
    { intros k Hk. apply no_strike_no_run. intros j Hj.
      destruct (Hfresh j) as [Hb Hd]; [lia|]. apply strike_false; assumption. }
    rewrite (loop_after_pages 9);
      [| lia | intros k Hk; split; [apply Hf; lia | rewrite Hrun by lia; lia]].
    assert (E10 : empty_or_repetitive (text_at 10) (text_at 9) = true)
      by (apply empty_or_repetitive_iff; exact H10).
    assert (E11 : empty_or_repetitive (text_at 11) (text_at 10) = true)
      by (apply empty_or_repetitive_iff; right; exact H11).
    assert (E12 : empty_or_repetitive (text_at 12) (text_at 11) = true)
      by (apply empty_or_repetitive_iff; right; congruence).
    pose (s9 := after_pages requests_get html_parser 9).
    pose (s10 := go_on s9). pose (s11 := go_on s10).
    assert (P9 : page_number s9 = 10) by reflexivity.
    assert (L9 : last_content s9 = text_at 9) by reflexivity.
    assert (C9 : empty_page_counter s9 = 0) by (apply Hrun; lia).
    assert (P10 : page_number s10 = 11) by reflexivity.
    assert (L10 : last_content s10 = text_at 10) by reflexivity.
    assert (C10 : empty_page_counter s10 = 1).
    { unfold s10, processed. cbn [empty_page_counter]. rewrite P9, L9, E10, C9.
      reflexivity. }
    assert (P11 : page_number s11 = 12) by reflexivity.
    assert (L11 : last_content s11 = text_at 11) by reflexivity.
    assert (C11 : empty_page_counter s11 = 2).
    { unfold s11, processed. cbn [empty_page_counter]. rewrite P10, L10, E11, C10.
      reflexivity. }
    fold s9. rewrite (loop_go_on s9);
      [| rewrite P9; lia | rewrite P9; apply Hf; lia
       | rewrite P9, L9, E10, C9; reflexivity ].
    fold s10. rewrite (loop_go_on s10);
      [| rewrite P10; lia | rewrite P10; apply Hf; lia
       | rewrite P10, L10, E11, C10; reflexivity ].
    fold s11. rewrite (loop_stop_end s11);
      [| rewrite P11; lia | rewrite P11; apply Hf; lia
       | rewrite P11, L11, E12, C11; reflexivity ].
    unfold stopped_at_end. cbn [page_number stdout requests].
    rewrite P11. split; [reflexivity|]. split.
    + rewrite last_of_two. reflexivity.
    + reflexivity.
Qed.

End Loop.

(** C10. A page answered with status 200 and an empty body ends the loop
    exactly as a page answered with another status does: the same final
    state, with the "does not exist" line printed last and nothing
    written for the page. *)
Theorem empty_body_is_missing_page
  (get get' : str -> response) (parser : str -> soup) (max : Z) (st : state) :
  page_number st <= max ->
  status_code (page_response get (page_number st)) = 200 ->
  text (page_response get (page_number st)) = [] ->
  status_code (page_response get' (page_number st)) <> 200 ->
  while_loop get parser max st = stopped_missing st /\
  while_loop get parser max st = while_loop get' parser max st /\
  file (while_loop get parser max st) = file st /\
  last (stdout (while_loop get parser max st)) [] =
    lit "Page " ++ str_of_int (page_number st) ++ lit " does not exist. Stopping.".
Proof.
  intros Hle H200 Hempty Hother.
  assert (E : while_loop get parser max st = stopped_missing st).
  { apply loop_stop_missing; [exact Hle|].
    unfold page_found. rewrite Hempty. apply andb_false_r. }
  assert (E' : while_loop get' parser max st = stopped_missing st).
  { apply loop_stop_missing; [exact Hle|].
    unfold page_found. apply Z.eqb_neq in Hother. rewrite Hother. reflexivity. }
  rewrite E, E'. repeat split; try reflexivity.
  unfold stopped_missing. cbn [stdout]. apply last_of_two.
Qed.

(** ** The conversion step *)

Section Conversion.

Variable requests_get : str -> response.
Variable html_parser : str -> soup.
Variable execute : list str -> files -> option Z * files.
Variable str_of_error : Z -> list str -> str.

(** C9. When the tool exits with a status other than zero,
    [convert_txt_to_mobi] returns normally: the exception is caught and
    one line with the text of the exception is printed; the tool has been
    started once; the disk is the one the tool left, the script touches no
    file. For the whole script: it ends normally, and the text file holds
    what the page loop wrote, unless the tool itself changed it. *)
Theorem conversion_failure_is_reported :
  (forall txt_file mobi_file w returncode disk',
      execute [lit "ebook-convert"; txt_file; mobi_file] (disk w)
        = (Some returncode, disk') ->
      returncode <> 0 ->
      convert_txt_to_mobi execute str_of_error txt_file mobi_file w =
      (Returned,
       World disk'
             (console w ++
              [lit "Error during conversion: " ++
               str_of_error returncode [lit "ebook-convert"; txt_file; mobi_file]])
             (started w ++ [[lit "ebook-convert"; txt_file; mobi_file]]))) /\
  (forall w returncode disk',
      let st := parse_book requests_get html_parser Config.max_pages in
      let written := store Config.output_file (file st) (disk w) in
      let cmd := [lit "ebook-convert"; Config.output_file; Config.mobi_file] in
      execute cmd written = (Some returncode, disk') ->
      returncode <> 0 ->
      exists w',
        script requests_get html_parser execute str_of_error w
          = (Returned, w', requests st) /\
        disk w' = disk' /\
        started w' = started w ++ [cmd] /\
        written Config.output_file = Some (file st) /\
        (disk' Config.output_file = written Config.output_file ->
         disk w' Config.output_file = Some (file st))).
Proof.
  assert (Hconv : forall txt_file mobi_file w returncode disk',
      execute [lit "ebook-convert"; txt_file; mobi_file] (disk w)
        = (Some returncode, disk') ->
      returncode <> 0 ->
      convert_txt_to_mobi execute str_of_error txt_file mobi_file w =
      (Returned,
       World disk'
             (console w ++
              [lit "Error during conversion: " ++
               str_of_error returncode [lit "ebook-convert"; txt_file; mobi_file]])
             (started w ++ [[lit "ebook-convert"; txt_file; mobi_file]]))).
  { intros txt_file mobi_file w returncode disk' He Hrc.
    unfold convert_txt_to_mobi, subprocess_run. rewrite He.
    apply Z.eqb_neq in Hrc. rewrite Hrc. reflexivity. }
  split; [exact Hconv|].
  intros w returncode disk' st written cmd He Hrc.
  assert (Hw : written Config.output_file = Some (file st)).
  { unfold written, store. rewrite eqb_refl. reflexivity. }
  eexists. split; [|split; [|split; [|split]]].
  - unfold script. fold st.
    rewrite (Hconv Config.output_file Config.mobi_file _ returncode disk');
      [reflexivity | exact He | exact Hrc].
  - reflexivity.
  - reflexivity.
  - exact Hw.
  - cbn [disk]. intros ->. exact Hw.
Qed.

End Conversion.

(** ** The properties on synthetic sources *)

(** Splits [lo <= k <= hi] into the cases [k = lo], ..., and runs the
    check on each. *)
Ltac for_each_page k Hk :=
  let E := fresh "E" in
  assert (E : k = 1 \/ k = 2 \/ k = 3 \/ k = 4 \/ k = 5 \/ k = 6 \/ k = 7 \/
              k = 8 \/ k = 9 \/ k = 10 \/ k = 11 \/ k = 12 \/ False) by lia;
  repeat (destruct E as [E|E]; [subst k|]); [..|destruct E];
  try (exfalso; lia); clear Hk.

Ltac settle :=
  vm_compute; repeat split; try reflexivity; try discriminate.

(** C1 (what fails). Pages 1 to 9 carry nine different texts, none
    empty; pages 10, 11 and 12 carry one and the same text. The
    specification has the loop stop on page 12 and report page 9. The code
    takes page 10 for new text, counts two strikes on pages 11 and 12,
    goes on to request page 13, and reports page 10. *)
Lemma repeated_text_needs_a_fourth_page :
  let text_at := page_text repeated_from_10 plain_text in
  let r := parse_book repeated_from_10 plain_text 800 in
  forallb (page_found repeated_from_10) (pages 12) = true /\
  forallb truthy (map text_at (pages 9)) = true /\
  distinct (map text_at (pages 9)) = true /\
  text_at 10 = text_at 11 /\ text_at 11 = text_at 12 /\
  requests r = map format_base_url (pages 13) /\
  In (format_base_url 13) (requests r) /\
  last (stdout r) [] = lit "Detected end of book at page 10. Stopping." /\
  last (stdout r) [] <> lit "Detected end of book at page 9. Stopping.".
Proof.
  vm_compute. repeat split; try reflexivity; try discriminate.
  do 12 right. left. reflexivity.
Qed.

(** Pages 10 to 12 blank: the third strike falls on page 12. *)
Lemma third_strike_reports_three_back_witness :
  let r := parse_book blank_from_10 plain_text 800 in
  page_number r = 12 /\
  last (stdout r) [] = lit "Detected end of book at page 9. Stopping." /\
  requests r = map format_base_url (pages 12).
Proof.
  apply (proj2 (third_strike_reports_three_back blank_from_10 plain_text 800)).
  - lia.
  - intros k Hk. for_each_page k Hk; settle.
  - intros k Hk. for_each_page k Hk; settle.
  - reflexivity.
  - reflexivity.
  - left. reflexivity.
Defined.

(** Four pages, then a 404. *)
Lemma missing_page_stops_loop_witness :
  let r := parse_book missing_from_5 plain_text 800 in
  requests r = map format_base_url [1; 2; 3; 4; 5] /\
  file r = page_paragraphs missing_from_5 plain_text 1
           ++ page_paragraphs missing_from_5 plain_text 2
           ++ page_paragraphs missing_from_5 plain_text 3
           ++ page_paragraphs missing_from_5 plain_text 4 /\
  stdout r = map fetching_line [1; 2; 3; 4] ++ [fetching_line 5; missing_line 5] /\
  page_number r = 5.
Proof.
  apply (proj2 (missing_page_stops_loop missing_from_5 plain_text 800)).
  - lia.
  - intros k Hk.
    assert (E : k = 1%nat \/ k = 2%nat \/ k = 3%nat \/ k = 4%nat) by lia.
    destruct E as [-> | [-> | [-> | ->]]]; settle.
  - vm_compute. discriminate.
Defined.

(** A book without end, read with a ceiling of three pages. *)
Lemma loop_stops_at_max_pages_witness :
  let r := parse_book all_different plain_text 3 in
  requests r = map format_base_url [1; 2; 3] /\
  page_number r = 4 /\
  stdout r = map fetching_line [1; 2; 3] /\
  file r = page_paragraphs all_different plain_text 1
           ++ page_paragraphs all_different plain_text 2
           ++ page_paragraphs all_different plain_text 3.
Proof.
  apply (proj2 (loop_stops_at_max_pages all_different plain_text 3)).
  - reflexivity.
  - intros k Hk. for_each_page k Hk; settle.
Defined.

(** Page 2 after page 1: new text, the counter is reset. *)
Lemma repetition_check_is_exact_witness :
  let st := State 2 (lit "page 1") 0 [] [] [] in
  strip (lit "page 2") <> [] /\ lit "page 2" <> lit "page 1" /\
  empty_page_counter (state_of (loop_body all_different plain_text st)) = 0.
Proof.
  split; [vm_compute; discriminate|]. split; [vm_compute; discriminate|].
  apply (proj1 (proj2 (proj1 (proj2
           (repetition_check_is_exact all_different plain_text))
           (State 2 (lit "page 1") 0 [] [] []) eq_refl))).
  - vm_compute. discriminate.
  - vm_compute. discriminate.
Defined.

(** Page 1 with an empty body, against a server that finds nothing. *)
Lemma empty_body_is_missing_page_witness :
  while_loop empty_page_1 plain_text 800 initial_state
    = stopped_missing initial_state /\
  while_loop empty_page_1 plain_text 800 initial_state
    = while_loop nothing_found plain_text 800 initial_state /\
  file (while_loop empty_page_1 plain_text 800 initial_state) = [] /\
  last (stdout (while_loop empty_page_1 plain_text 800 initial_state)) [] =
    lit "Page " ++ str_of_int 1 ++ lit " does not exist. Stopping.".
Proof.
  apply (empty_body_is_missing_page empty_page_1 nothing_found plain_text
           800 initial_state).
  - cbn. lia.
  - reflexivity.
  - reflexivity.
  - vm_compute. discriminate.
Defined.

(** A tool that exits with status 1. *)
Lemma conversion_failure_is_reported_witness :
  convert_txt_to_mobi failing_tool exit_status_text
    Config.output_file Config.mobi_file empty_world =
  (Returned,
   World (disk empty_world)
         [lit "Error during conversion: " ++
          exit_status_text 1
            [lit "ebook-convert"; Config.output_file; Config.mobi_file]]
         [[lit "ebook-convert"; Config.output_file; Config.mobi_file]]).
Proof.
  apply (proj1 (conversion_failure_is_reported nothing_found plain_text
                  failing_tool exit_status_text)
           Config.output_file Config.mobi_file empty_world 1 (disk empty_world)).
  - reflexivity.
  - discriminate.
Defined.

(** From page 2 the loop goes on to page 3. *)
Lemma pages_requested_in_order_witness :
  let st := State 2 (lit "page 1") 0 [] [] [] in
  loop_body all_different plain_text st =
    Continue (processed all_different plain_text st) /\
  page_number (processed all_different plain_text st) = page_number st + 1.
Proof.
  split; [reflexivity|].
  apply (proj1 (proj2 (pages_requested_in_order all_different plain_text 800))
           (State 2 (lit "page 1") 0 [] [] [])).
  reflexivity.
Defined.

(** * Further properties *)

(** ** More on [clean_content] *)

Lemma lstrip_length s : (List.length (lstrip s) <= List.length s)%nat.
Proof.
  induction s as [|c t IH]; simpl; [lia|]. destruct (isspace c); simpl; lia.
Qed.

Lemma rstrip_length s : (List.length (rstrip s) <= List.length s)%nat.
Proof.
  induction s as [|c t IH]; simpl; [lia|].
  destruct (rstrip t); [destruct (isspace c)|]; simpl in *; lia.
Qed.

Lemma replace_from_delete_length old skip s :
  (List.length (replace_from old [] skip s) <= List.length s)%nat.
Proof.
  revert skip; induction s as [|c t IH]; intros skip; simpl; [lia|].
  destruct skip as [|k].
  - destruct (startswith old (c :: t)); simpl.
    + specialize (IH (List.length old - 1)%nat). lia.
    + specialize (IH 0%nat). lia.
  - specialize (IH k). lia.
Qed.

Lemma replace_from_single_length a b s :
  List.length (replace_from [a] [b] 0 s) = List.length s.
Proof.
  induction s as [|c t IH]; simpl; [reflexivity|].
  destruct (a =? c)%N; simpl; rewrite IH; reflexivity.
Qed.

(** What [rstrip] returns does not end with a space. *)
Lemma rstrip_last s :
  rstrip s = [] \/ isspace (last (rstrip s) 0%N) = false.
Proof.
  induction s as [|c t IH]; simpl; [auto|].
  destruct (rstrip t) as [|y t'] eqn:E.
  - destruct (isspace c) eqn:Ec; simpl; auto.
  - right. destruct IH as [IH|IH]; [discriminate|]. exact IH.
Qed.




(** X1. The texts [clean_content] leaves as they are, are exactly those
    without a non-breaking space and without white space at either end. *)
Theorem clean_content_fixed_points (s : str) :
  clean_content s = s <-> ~ In NBSP s /\ strip s = s.
Proof.
  split.
  - intros H. assert (Hn : ~ In NBSP s).
    { rewrite <- H. apply clean_content_no_nbsp. }
    split; [exact Hn|]. rewrite <- (clean_content_plain s Hn). exact H.
  - intros [Hn Hs]. rewrite (clean_content_plain s Hn). exact Hs.
Qed.

(** X2. Cleaned text is empty, or begins and ends with a character that
    is not white space. *)
Theorem clean_content_is_trimmed (s : str) :
  clean_content s = [] \/
  (isspace (hd 0%N (clean_content s)) = false /\
   isspace (last (clean_content s) 0%N) = false).
Proof.
  unfold clean_content.
  set (x := replace [NBSP] [SPACE] (replace [EN_DASH; NBSP] [] s)).
  unfold strip. pose proof (lstrip_head x) as Hh.
  destruct (lstrip x) as [|c t] eqn:E; [left; reflexivity|].
  right. destruct (rstrip_head c t Hh) as [t' Ht].
  split.
  - rewrite Ht. exact Hh.
  - destruct (rstrip_last (c :: t)) as [H|H]; [|exact H].
    rewrite Ht in H. discriminate H.
Qed.

(** X3. Cleaning never makes a text longer. *)
Theorem clean_content_not_longer (s : str) :
  (List.length (clean_content s) <= List.length s)%nat.
Proof.
  unfold clean_content, strip, replace.
  pose proof (replace_from_delete_length [EN_DASH; NBSP] 0 s) as H1.
  set (x := replace_from [EN_DASH; NBSP] [] 0 s) in *.
  pose proof (replace_from_single_length NBSP SPACE x) as H2.
  set (y := replace_from [NBSP] [SPACE] 0 x) in *.
  pose proof (lstrip_length y) as H3. pose proof (rstrip_length (lstrip y)) as H4.
  lia.
Qed.



(** ** Page numbers as text *)

Lemma lit_injective a b : lit a = lit b -> a = b.
Proof.
  unfold lit. intros H.
  rewrite <- (string_of_list_ascii_of_string a), <- (string_of_list_ascii_of_string b).
  f_equal. revert H.
  generalize (list_ascii_of_string a) (list_ascii_of_string b).
  intros x; induction x as [|c x IH]; intros [|d y]; simpl; try discriminate;
    [reflexivity|].
  intros [= Hc Hx]. f_equal; [|apply IH; exact Hx].
  rewrite <- (ascii_N_embedding c), <- (ascii_N_embedding d), Hc. reflexivity.
Qed.

Lemma to_int_proper z : Z.to_int z <> Decimal.Pos Decimal.Nil /\
                        Z.to_int z <> Decimal.Neg Decimal.Nil.
Proof.
  destruct z as [|p|p]; simpl; split; try discriminate;
    intros [= H]; exact (DecimalPos.Unsigned.to_uint_nonnil p H).
Qed.

(** [str(n)] tells the integers apart. *)
Lemma str_of_int_injective a b : str_of_int a = str_of_int b -> a = b.
Proof.
  unfold str_of_int. intros H. apply lit_injective in H.
  destruct (to_int_proper a) as [Ha1 Ha2], (to_int_proper b) as [Hb1 Hb2].
  pose proof (NilZero.isi (Z.to_int a) Ha1 Ha2) as Ea.
  pose proof (NilZero.isi (Z.to_int b) Hb1 Hb2) as Eb.
  rewrite H, Eb in Ea. injection Ea as Ea.
  rewrite <- (DecimalZ.of_to a), <- (DecimalZ.of_to b), Ea. reflexivity.
Qed.

(** [str(n)] is never empty. *)
Lemma str_of_int_truthy z : truthy (str_of_int z) = true.
Proof.
  unfold str_of_int.
  assert (H : NilZero.string_of_int (Z.to_int z) <> EmptyString).
  { destruct (Z.to_int z) as [d|d]; simpl; [|discriminate].
    destruct d; simpl; discriminate. }
  destruct (NilZero.string_of_int (Z.to_int z)); [congruence | reflexivity].
Qed.

Lemma format_base_url_injective a b :
  format_base_url a = format_base_url b -> a = b.
Proof.
  unfold format_base_url. intros H. apply app_inv_head in H.
  apply str_of_int_injective. exact H.
Qed.

Lemma startswith_app x post : startswith x (x ++ post) = true.
Proof.
  induction x as [|c x IH]; simpl; [reflexivity|].
  rewrite N.eqb_refl. exact IH.
Qed.

Lemma contains_infix x pre post : contains x (pre ++ x ++ post) = true.
Proof.
  induction pre as [|c pre IH]; simpl.
  - pose proof (startswith_app x post) as H.
    destruct (x ++ post); simpl; rewrite H; reflexivity.
  - rewrite IH. apply orb_true_r.
Qed.

(** ** More on [extract_and_save_content] *)

Lemma truthy_infix x pre post : truthy x = true -> truthy (pre ++ x ++ post) = true.
Proof.
  destruct pre; [|reflexivity]. destruct x; [discriminate | reflexivity].
Qed.

(** An image followed by text that has the page number anywhere in it is
    a marker of the page. *)
Lemma labelled_image_is_marker page pre post r a :
  is_page_marker page
    (Element img (NavigableString (pre ++ str_of_int page ++ post) :: r) a) = true.
Proof.
  unfold is_page_marker, next_sibling, next_siblings.
  cbn [right up siblings hd_error here node_truthy node_contains].
  rewrite contains_infix, truthy_infix by apply str_of_int_truthy.
  reflexivity.
Qed.

Lemma no_marker_without_img page l :
  existsb (has_name (lit "img")) l = false ->
  filter (fun e => match name e with
                   | Some _ => is_page_marker page e
                   | None => false
                   end) l = [].
Proof.
  induction l as [|e l IH]; simpl; [reflexivity|].
  intros H. apply orb_false_iff in H. destruct H as [He Hl].
  unfold is_page_marker at 1. rewrite He. cbn [andb].
  destruct (name e); apply IH; exact Hl.
Qed.

(** X5. A page without an [img] tag adds nothing to the file, whatever
    paragraphs it holds and whatever the page number is. *)
Theorem page_without_img_writes_nothing (doc : soup) (file : str) (page : Z) :
  has_tag (lit "img") doc = false ->
  extract_and_save_content doc file page = file.
Proof.
  intros H. unfold extract_and_save_content, find_all.
  rewrite (no_marker_without_img page _ H). reflexivity.
Qed.

Lemma page_without_img_writes_nothing_witness :
  extract_and_save_content
    [Tag (lit "div") [paragraph (lit "one"); paragraph (lit "two")]]
    (lit "before") 1 = lit "before".
Proof.
  apply page_without_img_writes_nothing. reflexivity.
Defined.

(** X6. The page number is looked for anywhere in the text after the
    image: a label that holds the digits of the page number among others
    (label "17" for page 1 or page 7) marks the page too, and the
    paragraph after it is written. *)
Theorem label_holding_the_number_marks_the_page
  (page : Z) (pre post t file : str) :
  extract_and_save_content
    [img; NavigableString (pre ++ str_of_int page ++ post); paragraph t]
    file page =
  file ++ clean_content t ++ [NEWLINE; NEWLINE].
Proof.
  unfold extract_and_save_content. rewrite extract_markers. f_equal.
  unfold find_all, img, paragraph.
  cbn [elements_in elements_of app filter name here].
  rewrite (labelled_image_is_marker page pre post), last_is_no_marker.
  cbn [flat_map app]. unfold paragraphs_after, find_next.
  cbn -[clean_content lit eqb str_of_int]. unfold has_name at 1. cbn [name here].
  rewrite eqb_refl. cbn [next_siblings siblings right up filter].
  unfold written_for, get_text. cbn -[clean_content lit str_of_int].
  rewrite !app_nil_r. reflexivity.
Qed.

(** ** More on the page loop *)

Section Runs.

Variable requests_get : str -> response.
Variable html_parser : str -> soup.
Variable max_pages : Z.

Local Abbreviation body := (loop_body requests_get html_parser).
Local Abbreviation found := (page_found requests_get).
Local Abbreviation strike_at := (strike requests_get html_parser).
Local Abbreviation run_of_strikes := (strikes_in_a_row requests_get html_parser).
Local Abbreviation after := (after_pages requests_get html_parser).
Local Abbreviation stop_end := (stopped_at_end requests_get html_parser).
Local Abbreviation paragraphs_at := (page_paragraphs requests_get html_parser).
Local Abbreviation result := (parse_book requests_get html_parser max_pages).

Lemma clean_run_below_three n :
  clean_run requests_get html_parser n -> run_of_strikes n < 3.
Proof.
  destruct n as [|n]; [intros _; cbn; lia|]. intros H. apply H. lia.
Qed.

Lemma clean_run_succ n :
  clean_run requests_get html_parser n ->
  found (Z.of_nat n + 1) = true -> run_of_strikes (S n) < 3 ->
  clean_run requests_get html_parser (S n).
Proof.
  intros Hn Hf Hs k Hk. destruct (Nat.eq_dec k (S n)) as [->|Hne].
  - split; [|exact Hs]. replace (Z.of_nat (S n)) with (Z.of_nat n + 1) by lia.
    exact Hf.
  - apply Hn. lia.
Qed.

(** The shape of every run: some pages [1] to [n] are gone through, and
    then the loop is left at the ceiling, on a page that is not found, or
    on the third strike in a row. *)
Lemma run_shape :
  exists n : nat,
    clean_run requests_get html_parser n /\
    Z.of_nat n <= Z.max 0 max_pages /\
    ((max_pages < Z.of_nat n + 1 /\ result = after n) \/
     (Z.of_nat n + 1 <= max_pages /\ found (Z.of_nat n + 1) = false /\
      result = stopped_missing (after n)) \/
     (Z.of_nat n + 1 <= max_pages /\ found (Z.of_nat n + 1) = true /\
      run_of_strikes (S n) = 3 /\ result = stop_end (after n))).
Proof.
  unfold parse_book.
  apply (while_loop_rule requests_get html_parser max_pages
           (fun st => exists n : nat,
                st = after n /\ clean_run requests_get html_parser n /\
                Z.of_nat n <= Z.max 0 max_pages)).
  - intros st [n [-> [Hc Hn]]] Hexit. exists n. cbn [page_number after_pages] in Hexit.
    auto.
  - intros st st' [n [-> [Hc Hn]]] Hle Hb. cbn [page_number after_pages] in Hle.
    destruct (loop_body_continue _ _ _ _ Hb) as [Hf ->].
    rewrite (loop_body_found requests_get html_parser (after n) Hf) in Hb.
    cbn [page_number after_pages] in Hf.
    exists (S n). split; [apply processed_after_pages|].
    split; [|lia]. apply clean_run_succ; [exact Hc | exact Hf |].
    cbn [page_number last_content empty_page_counter after_pages] in Hb.
    cbn [strikes_in_a_row]. unfold strike.
    destruct (empty_or_repetitive _ _); [|lia]. cbn [andb] in Hb.
    destruct (Z.geb_spec (run_of_strikes n + 1) 3); [discriminate | lia].
  - intros st st' [n [-> [Hc Hn]]] Hle Hb. cbn [page_number after_pages] in Hle.
    exists n. split; [exact Hc|]. split; [exact Hn|]. right.
    destruct (loop_body_break _ _ _ _ Hb) as [[Hf ->]|[Hf [Hs [H3 ->]]]];
      cbn [page_number last_content empty_page_counter after_pages] in *.
    + left. auto.
    + right. repeat split; auto.
      cbn [strikes_in_a_row]. unfold strike. rewrite Hs.
      pose proof (clean_run_below_three n Hc). lia.
  - exists O. split; [reflexivity|]. split; [|lia]. intros k Hk. lia.
Qed.

(** X7. A run ends in one of three ways, after going through some pages
    [1] to [n] that were all found without a third strike: at the ceiling,
    with nothing but the "Fetching" lines printed; on page [n + 1] not
    found; or on page [n + 1] found and the third strike in a row. Each
    time the final state is known in full. *)
Theorem run_ends_in_one_of_three_ways :
  exists n : nat,
    clean_run requests_get html_parser n /\
    Z.of_nat n <= Z.max 0 max_pages /\
    ((max_pages < Z.of_nat n + 1 /\ result = after n) \/
     (Z.of_nat n + 1 <= max_pages /\ found (Z.of_nat n + 1) = false /\
      result = stopped_missing (after n)) \/
     (Z.of_nat n + 1 <= max_pages /\ found (Z.of_nat n + 1) = true /\
      run_of_strikes (S n) = 3 /\ result = stop_end (after n))).
Proof. exact run_shape. Qed.

Lemma three_in_a_row n :
  run_of_strikes (S n) = 3 ->
  (2 <= n)%nat /\ strike_at (Z.of_nat n + 1) = true /\
  strike_at (Z.of_nat n) = true /\ strike_at (Z.of_nat n - 1) = true.
Proof.
  cbn [strikes_in_a_row]. destruct (strike_at (Z.of_nat n + 1)) eqn:E1; [|lia].
  destruct n as [|n1]; cbn [strikes_in_a_row]; [lia|].
  destruct (strike_at (Z.of_nat n1 + 1)) eqn:E2; [|lia].
  destruct n1 as [|n2]; cbn [strikes_in_a_row]; [lia|].
  destruct (strike_at (Z.of_nat n2 + 1)) eqn:E3; [|lia]. intros _.
  split; [lia|]. split; [reflexivity|].
  replace (Z.of_nat (S (S n2))) with (Z.of_nat (S n2) + 1) by lia.
  rewrite E2. replace (Z.of_nat (S n2) + 1 - 1) with (Z.of_nat n2 + 1) by lia.
  auto.
Qed.

(** X8. The counter stands at 3 in the end only if the loop stopped on
    a third strike. Then the page number is at least 3 (so the page
    reported is never negative), the last line printed names the page
    three back, the last three pages requested were each blank or equal to
    the page before, and every page requested was found. *)
Theorem end_is_reported_after_three_strikes :
  3 <= empty_page_counter result ->
  let p := page_number result in
  empty_page_counter result = 3 /\
  3 <= p <= max_pages /\
  last (stdout result) [] = end_line (p - 3) /\
  strike_at p = true /\ strike_at (p - 1) = true /\ strike_at (p - 2) = true /\
  (forall k, 1 <= k <= p -> found k = true).
Proof.
  destruct run_shape as [n [Hc [Hn [[_ ->]|[[_ [_ ->]]|[Hle [Hf [H3 ->]]]]]]]].
  - cbn [empty_page_counter after_pages]. intros H.
    pose proof (clean_run_below_three n Hc). lia.
  - cbn [empty_page_counter after_pages stopped_missing]. intros H.
    pose proof (clean_run_below_three n Hc). lia.
  - intros _. cbn [empty_page_counter page_number stdout after_pages stopped_at_end].
    destruct (three_in_a_row n H3) as [H2 [S1 [S2 S3]]].
    cbn [strikes_in_a_row] in H3. rewrite S1 in H3.
    split; [exact H3|]. split; [lia|]. split; [apply last_of_two|].
    replace (Z.of_nat n + 1 - 1) with (Z.of_nat n) by lia.
    replace (Z.of_nat n + 1 - 2) with (Z.of_nat n - 1) by lia.
    repeat split; auto.
    intros k Hk. destruct (Z.eq_dec k (Z.of_nat n + 1)) as [->|Hne]; [exact Hf|].
    replace k with (Z.of_nat (Z.to_nat k)) by lia. apply Hc. lia.
Qed.

Lemma filter_all (f : Z -> bool) l :
  (forall x, In x l -> f x = true) -> filter f l = l.
Proof.
  induction l as [|x l IH]; simpl; [reflexivity|]. intros H.
  rewrite (H x) by auto. rewrite IH; auto.
Qed.

Lemma clean_run_all_found n :
  clean_run requests_get html_parser n -> filter found (pages n) = pages n.
Proof.
  intros Hc. apply filter_all. intros x Hx. unfold pages in Hx.
  apply in_map_iff in Hx. destruct Hx as [k [<- Hk]]. apply in_seq in Hk.
  apply Hc. lia.
Qed.

Lemma requests_are_first_pages :
  exists m : nat, requests result = map format_base_url (pages m).
Proof.
  destruct run_shape as [n [_ [_ [[_ ->]|[[_ [_ ->]]|[_ [_ [_ ->]]]]]]]].
  - exists n. reflexivity.
  - exists (S n). cbn [requests after_pages stopped_missing page_number].
    rewrite pages_succ, map_app. reflexivity.
  - exists (S n). cbn [requests after_pages stopped_at_end page_number].
    rewrite pages_succ, map_app. reflexivity.
Qed.

(** X9. The file holds the paragraphs of every page that was requested
    and found, in page order, and nothing else; the pages that counted as
    strikes, the one the loop stopped on included, are written like any
    other. *)
Theorem file_holds_every_page_found :
  exists m : nat,
    requests result = map format_base_url (pages m) /\
    file result = List.concat (map paragraphs_at (filter found (pages m))).
Proof.
  destruct run_shape as [n [Hc [Hn [[_ ->]|[[_ [Hf ->]]|[_ [Hf [_ ->]]]]]]]].
  - exists n. rewrite (clean_run_all_found n Hc). split; reflexivity.
  - exists (S n). cbn [requests file after_pages stopped_missing page_number].
    rewrite pages_succ, filter_app, map_app, (clean_run_all_found n Hc).
    cbn [filter map]. rewrite Hf, app_nil_r. split; reflexivity.
  - exists (S n). cbn [requests file after_pages stopped_at_end page_number].
    rewrite pages_succ, filter_app, !map_app, List.concat_app,
      (clean_run_all_found n Hc).
    cbn [filter map List.concat]. rewrite Hf. cbn [map List.concat].
    rewrite app_nil_r. split; reflexivity.
Qed.

Lemma NoDup_map_injective {A B : Type} (f : A -> B) l :
  (forall a b, f a = f b -> a = b) -> NoDup l -> NoDup (map f l).
Proof.
  intros Hinj H. induction H as [|x l Hx Hl IH]; simpl; constructor; [|exact IH].
  intros Hin. apply in_map_iff in Hin. destruct Hin as [y [Hy Hin]].
  apply Hinj in Hy. subst y. exact (Hx Hin).
Qed.

(** X10. No URL is requested twice in a run. *)
Theorem no_url_requested_twice :
  NoDup (requests (parse_book requests_get html_parser max_pages)).
Proof.
  destruct requests_are_first_pages as [m ->].
  apply NoDup_map_injective; [apply format_base_url_injective|].
  unfold pages. apply NoDup_map_injective; [apply Nat2Z.inj | apply seq_NoDup].
Qed.

(** X11. With a ceiling below 1 the loop does not run: nothing is
    requested, printed or written. *)
Theorem ceiling_below_one_requests_nothing :
  max_pages < 1 -> result = initial_state.
Proof.
  intros H. unfold parse_book. apply loop_exit. cbn. exact H.
Qed.

End Runs.

Lemma ceiling_below_one_requests_nothing_witness :
  parse_book all_different plain_text 0 = initial_state.
Proof.
  apply ceiling_below_one_requests_nothing. lia.
Defined.

Lemma end_is_reported_after_three_strikes_witness :
  let r := parse_book blank_from_10 plain_text 800 in
  let p := page_number r in
  empty_page_counter r = 3 /\
  3 <= p <= 800 /\
  last (stdout r) [] = end_line (p - 3) /\
  strike blank_from_10 plain_text p = true /\
  strike blank_from_10 plain_text (p - 1) = true /\
  strike blank_from_10 plain_text (p - 2) = true /\
  (forall k, 1 <= k <= p -> page_found blank_from_10 k = true).
Proof.
  apply (end_is_reported_after_three_strikes blank_from_10 plain_text 800).
  vm_compute. discriminate.
Defined.

(** X12. A run depends on the answers for the pages 1 to [max_pages]
    only: two servers that agree on these pages give the same run,
    whatever they answer for any other URL. *)
Theorem run_reads_only_its_pages
  (get get' : str -> response) (parser : str -> soup) (max : Z) :
  (forall k, 1 <= k <= max -> get (format_base_url k) = get' (format_base_url k)) ->
  parse_book get parser max = parse_book get' parser max.
Proof.
  intros Hsame. unfold parse_book.
  assert (H : forall n st, n = Z.to_nat (max + 1 - page_number st) ->
                           1 <= page_number st ->
                           while_loop get parser max st = while_loop get' parser max st).
  { induction n as [n IH] using lt_wf_ind. intros st En H1.
    rewrite (while_loop_step get), (while_loop_step get').
    destruct (Z.leb_spec (page_number st) max) as [Hle|Hgt]; [|reflexivity].
    assert (Hb : loop_body get parser st = loop_body get' parser st).
    { unfold loop_body, fetch_page. rewrite Hsame by lia. reflexivity. }
    rewrite <- Hb. destruct (loop_body get parser st) as [st'|st'] eqn:E;
      [|reflexivity].
    apply loop_body_advances in E.
    apply (IH (Z.to_nat (max + 1 - page_number st'))); lia. }
  apply (H _ initial_state eq_refl). cbn. lia.
Qed.

Lemma run_reads_only_its_pages_witness :
  parse_book all_different plain_text 3 = parse_book missing_from_5 plain_text 3.
Proof.
  apply run_reads_only_its_pages.
  intros k Hk. for_each_page k Hk; reflexivity.
Defined.

(** ** More on the conversion step *)

Section Tool.

Variable requests_get : str -> response.
Variable html_parser : str -> soup.
Variable execute : list str -> files -> option Z * files.
Variable str_of_error : Z -> list str -> str.

(** X13. [convert_txt_to_mobi] starts the tool once. If the tool ran,
    whatever its exit status, the call returns normally with one line
    printed, the success line for status 0 and the error line otherwise;
    an exit status is never passed on as an exception. Only when the tool
    could not be started does the call raise, and then nothing is
    printed. *)
Theorem convert_raises_only_when_tool_cannot_start
  (txt_file mobi_file : str) (w : world) :
  let cmd := [lit "ebook-convert"; txt_file; mobi_file] in
  match fst (execute cmd (disk w)) with
  | Some returncode =>
      convert_txt_to_mobi execute str_of_error txt_file mobi_file w =
      (Returned,
       World (snd (execute cmd (disk w)))
             (console w ++
              [if returncode =? 0
               then lit "Conversion to " ++ mobi_file ++ lit " completed successfully."
               else lit "Error during conversion: " ++ str_of_error returncode cmd])
             (started w ++ [cmd]))
  | None =>
      convert_txt_to_mobi execute str_of_error txt_file mobi_file w =
      (Raised OSError, w)
  end.
Proof.
  intros cmd. unfold convert_txt_to_mobi, subprocess_run. fold cmd.
  destruct (execute cmd (disk w)) as [[returncode|] disk']; cbn [fst snd];
    [|reflexivity].
  destruct (returncode =? 0); reflexivity.
Qed.

(** X14. When [ebook-convert] cannot be started the script ends with the
    exception, after the loop's lines and "Book parsing completed." are
    printed. The text file is on disk by then and holds what the loop
    wrote, whatever it held before; no other file is touched. *)
Theorem missing_converter_ends_script_after_text_is_written (w : world) :
  let st := parse_book requests_get html_parser Config.max_pages in
  let written := store Config.output_file (file st) (disk w) in
  let cmd := [lit "ebook-convert"; Config.output_file; Config.mobi_file] in
  fst (execute cmd written) = None ->
  script requests_get html_parser execute str_of_error w =
    (Raised OSError,
     World written (console w ++ stdout st ++ [lit "Book parsing completed."])
           (started w),
     requests st) /\
  written Config.output_file = Some (file st) /\
  (forall path, path <> Config.output_file -> written path = disk w path).
Proof.
  intros st written cmd Hnone. split; [|split].
  - unfold script. fold st. unfold convert_txt_to_mobi, subprocess_run.
    cbn [disk say console started]. fold written. fold cmd.
    destruct (execute cmd written) as [[rc|] d]; [discriminate Hnone|].
    unfold say. cbn [disk console started]. rewrite <- app_assoc. reflexivity.
  - unfold written, store. rewrite eqb_refl. reflexivity.
  - intros path Hp. unfold written, store.
    apply eqb_neq in Hp. rewrite Hp. reflexivity.
Qed.

End Tool.

Lemma missing_converter_ends_script_after_text_is_written_witness :
  let st := parse_book nothing_found plain_text Config.max_pages in
  let written := store Config.output_file (file st) (disk empty_world) in
  script nothing_found plain_text missing_tool exit_status_text empty_world =
    (Raised OSError,
     World written
           (console empty_world ++ stdout st ++ [lit "Book parsing completed."])
           (started empty_world),
     requests st) /\
  written Config.output_file = Some (file st) /\
  (forall path, path <> Config.output_file -> written path = disk empty_world path).
Proof.
  apply (missing_converter_ends_script_after_text_is_written
           nothing_found plain_text missing_tool exit_status_text empty_world).
  reflexivity.
Defined.

(** ** What the console shows *)

(** X15. Every request is announced: the console holds one "Fetching
    page k" line for each page requested, in order, and after them at most
    one closing line, for the page not found or for the end detected three
    pages back. *)
Theorem every_request_is_announced
  (requests_get : str -> response) (html_parser : str -> soup) (max_pages : Z) :
  let r := parse_book requests_get html_parser max_pages in
  exists (m : nat) (closing : list str),
    requests r = map format_base_url (pages m) /\
    stdout r = map fetching_line (pages m) ++ closing /\
    (closing = [] \/
     closing = [missing_line (Z.of_nat m)] \/
     closing = [end_line (Z.of_nat m - 3)]).
Proof.
  intros r. subst r.
  destruct (run_shape requests_get html_parser max_pages)
    as [n [_ [_ [[_ ->]|[[_ [_ ->]]|[_ [_ [_ ->]]]]]]]].
  - exists n, []. rewrite app_nil_r. repeat split; auto.
  - exists (S n), [missing_line (Z.of_nat n + 1)].
    cbn [requests stdout after_pages stopped_missing page_number].
    rewrite pages_succ, !map_app, <- app_assoc.
    replace (Z.of_nat (S n)) with (Z.of_nat n + 1) by lia.
    repeat split; auto.
  - exists (S n), [end_line (Z.of_nat n + 1 - 3)].
    cbn [requests stdout after_pages stopped_at_end page_number].
    rewrite pages_succ, !map_app, <- app_assoc.
    replace (Z.of_nat (S n)) with (Z.of_nat n + 1) by lia.
    repeat split; auto.
Qed.

(** ** Two markers on one page *)

(** Among flat siblings, the first tag called [nm] in document order is
    the first sibling called [nm]. *)
Lemma find_among_flat nm sibs above tail :
  forallb flat sibs = true ->
  find (has_name nm) (elements_in sibs above ++ tail) =
  match find (has_name nm) (siblings sibs above) with
  | Some q => Some q
  | None => find (has_name nm) tail
  end.
Proof.
  induction sibs as [|n r IH]; [reflexivity|]. intros H.
  cbn [forallb] in H. apply andb_true_iff in H. destruct H as [Hn Hr].
  cbn [elements_in siblings find]. rewrite <- app_assoc.
  destruct n as [s|s|name [|[t|t|name' cs'] [|c cs]]]; try discriminate Hn;
    cbn [elements_of app find];
    (destruct (has_name nm _); [reflexivity | apply IH; exact Hr]).
Qed.

(** The first sibling found and the later ones the loop moves to are all
    the siblings of that name. *)
Lemma find_then_filter nm sibs above :
  match find (has_name nm) (siblings sibs above) with
  | Some q => q :: filter (has_name nm) (next_siblings q)
  | None => []
  end = filter (has_name nm) (siblings sibs above).
Proof.
  induction sibs as [|n r IH]; [reflexivity|]. cbn [siblings find filter].
  destruct (has_name nm (Element n r above)); [reflexivity | exact IH].
Qed.

(** A top-level tag without contents, followed by flat siblings: the
    loop started from it visits every later sibling that is a paragraph. *)
Lemma paragraphs_after_flat nm sibs :
  forallb flat sibs = true ->
  paragraphs_after (Element (Tag nm []) sibs []) =
  filter (has_name (lit "p")) (siblings sibs []).
Proof.
  intros H. unfold paragraphs_after, find_next, next_elements, descendants.
  cbn [here right up following elements_in app].
  rewrite (find_among_flat (lit "p") sibs [] [] H).
  rewrite <- (find_then_filter (lit "p") sibs []).
  destruct (find (has_name (lit "p")) (siblings sibs [])); reflexivity.
Qed.

Lemma flat_paragraphs ps rest :
  forallb flat (map paragraph ps ++ rest) = forallb flat rest.
Proof. induction ps as [|t ps IH]; [reflexivity | exact IH]. Qed.

Lemma written_for_paragraphs ps rest above :
  List.concat (map written_for
                   (filter (has_name (lit "p"))
                           (siblings (map paragraph ps ++ rest) above))) =
  chunks ps ++
  List.concat (map written_for
                   (filter (has_name (lit "p")) (siblings rest above))).
Proof.
  induction ps as [|t ps IH]; [reflexivity|].
  cbn [map app siblings filter]. unfold paragraph at 1.
  change (has_name (lit "p") (Element (Tag (lit "p") [NavigableString t])
                                 (map paragraph ps ++ rest) above)) with true.
  cbn [map List.concat]. rewrite IH. unfold chunks. cbn [map List.concat].
  unfold written_for at 1, get_text. cbn [here text_of].
  change (text_of (paragraph t)) with (t ++ []).
  rewrite app_nil_r, <- !app_assoc. reflexivity.
Qed.

Lemma no_marker_among_paragraphs page ps rest above :
  filter (fun e => match name e with
                   | Some _ => is_page_marker page e
                   | None => false
                   end)
         (elements_in (map paragraph ps ++ rest) above) =
  filter (fun e => match name e with
                   | Some _ => is_page_marker page e
                   | None => false
                   end)
         (elements_in rest above).
Proof.
  induction ps as [|t ps IH]; [reflexivity|].
  cbn [map app elements_in]. unfold paragraph at 1.
  cbn [elements_of app filter name here].
  rewrite paragraph_is_no_marker. exact IH.
Qed.

Lemma markers_at_labelled_image page pre post rest above :
  filter (fun e => match name e with
                   | Some _ => is_page_marker page e
                   | None => false
                   end)
         (elements_in
            (img :: NavigableString (pre ++ str_of_int page ++ post) :: rest) above) =
  Element img (NavigableString (pre ++ str_of_int page ++ post) :: rest) above
  :: filter (fun e => match name e with
                      | Some _ => is_page_marker page e
                      | None => false
                      end)
            (elements_in rest above).
Proof.
  unfold img. cbn [elements_in elements_of app filter name here].
  rewrite (labelled_image_is_marker page pre post). reflexivity.
Qed.

Lemma no_paragraph_in_label l rest above :
  filter (has_name (lit "p")) (siblings (NavigableString l :: rest) above) =
  filter (has_name (lit "p")) (siblings rest above).
Proof. reflexivity. Qed.

Lemma no_paragraph_in_labelled_image l rest above :
  filter (has_name (lit "p")) (siblings (img :: NavigableString l :: rest) above) =
  filter (has_name (lit "p")) (siblings rest above).
Proof. reflexivity. Qed.

Lemma no_marker_in_paragraphs page qs above :
  filter (fun e => match name e with
                   | Some _ => is_page_marker page e
                   | None => false
                   end)
         (elements_in (map paragraph qs) above) = [].
Proof.
  rewrite <- (app_nil_r (map paragraph qs)). apply no_marker_among_paragraphs.
Qed.

Lemma written_for_last_paragraphs qs above :
  List.concat (map written_for
                   (filter (has_name (lit "p")) (siblings (map paragraph qs) above))) =
  chunks qs.
Proof.
  rewrite <- (app_nil_r (map paragraph qs)), written_for_paragraphs.
  apply app_nil_r.
Qed.

Lemma flat_last_paragraphs qs : forallb flat (map paragraph qs) = true.
Proof.
  rewrite <- (app_nil_r (map paragraph qs)). apply flat_paragraphs.
Qed.

(** X16. Every marker of the page starts a walk of its own over all the
    paragraphs that follow it. So when a page holds two markers for the
    page number, the paragraphs after the second marker are written twice:
    once at the end of the first marker's walk and once for the second. *)
Theorem paragraphs_after_second_marker_are_written_twice
  (page : Z) (pre1 post1 pre2 post2 : str) (ps qs : list str) (file : str) :
  extract_and_save_content
    ([img; NavigableString (pre1 ++ str_of_int page ++ post1)]
       ++ map paragraph ps
       ++ [img; NavigableString (pre2 ++ str_of_int page ++ post2)]
       ++ map paragraph qs)
    file page =
  file ++ (chunks ps ++ chunks qs) ++ chunks qs.
Proof.
  unfold extract_and_save_content. rewrite extract_markers. f_equal.
  unfold find_all. cbn [app].
  rewrite markers_at_labelled_image, no_marker_among_paragraphs,
    markers_at_labelled_image, no_marker_in_paragraphs.
  cbn [flat_map]. rewrite app_nil_r, map_app, List.concat_app.
  unfold img. rewrite !paragraphs_after_flat.
  - fold img. rewrite !no_paragraph_in_label, written_for_paragraphs,
      no_paragraph_in_labelled_image, !written_for_last_paragraphs.
    reflexivity.
  - cbn [forallb flat]. apply flat_last_paragraphs.
  - cbn [forallb flat]. rewrite flat_paragraphs. cbn [forallb flat].
    apply flat_last_paragraphs.
Qed.

(** ** The two replacements of [clean_content] *)

Lemma replace_from_single_map a b s :
  replace_from [a] [b] 0 s = map (fun c => if (c =? a)%N then b else c) s.
Proof.
  induction s as [|c t IH]; [reflexivity|].
  cbn [replace_from startswith List.length Nat.sub app map].
  rewrite (N.eqb_sym a c). destruct (c =? a)%N; cbn [andb app]; rewrite IH;
    reflexivity.
Qed.

(** X17. A dash followed by a non-breaking space is deleted wherever it
    stands, at the opening of the text or inside it: with text before it
    that has neither character and text after it without a non-breaking
    space, the two texts are joined and stripped. *)
Theorem dash_pair_is_deleted_anywhere (x y : str) :
  ~ In EN_DASH x -> ~ In NBSP x -> ~ In NBSP y ->
  clean_content (x ++ [EN_DASH; NBSP] ++ y) = strip (x ++ y).
Proof.
  intros Hdx Hnx Hny. unfold clean_content, replace.
  rewrite replace_from_prefix by exact Hdx.
  assert (E : replace_from [EN_DASH; NBSP] [] 0 ([EN_DASH; NBSP] ++ y) = y).
  { simpl. apply (replace_from_absent [EN_DASH; NBSP] [] NBSP y); simpl; auto. }
  rewrite E.
  rewrite (replace_from_absent [NBSP] [SPACE] NBSP (x ++ y)); simpl; auto.
  rewrite in_app_iff. tauto.
Qed.

Lemma dash_pair_is_deleted_anywhere_witness :
  clean_content ([] ++ [EN_DASH; NBSP] ++ lit "Hello - world ") =
  strip ([] ++ lit "Hello - world ").
Proof.
  apply dash_pair_is_deleted_anywhere; vm_compute; intuition discriminate.
Defined.

(** X18. In a text without a dash every non-breaking space becomes an
    ordinary space, one for one, before the text is stripped. *)
Theorem nbsp_becomes_space (s : str) :
  ~ In EN_DASH s ->
  clean_content s =
  strip (map (fun c => if (c =? NBSP)%N then SPACE else c) s).
Proof.
  intros H. unfold clean_content, replace.
  rewrite (replace_from_absent [EN_DASH; NBSP] [] EN_DASH s); simpl; auto.
  rewrite replace_from_single_map. reflexivity.
Qed.

Lemma nbsp_becomes_space_witness :
  clean_content (lit "a" ++ [NBSP; NBSP] ++ lit "b") =
  strip (map (fun c => if (c =? NBSP)%N then SPACE else c)
             (lit "a" ++ [NBSP; NBSP] ++ lit "b")).
Proof.
  apply nbsp_becomes_space. vm_compute. intuition discriminate.
Defined.

(** ** Where a run stops *)

Section Stops.

Variable requests_get : str -> response.
Variable html_parser : str -> soup.
Variable max_pages : Z.

Local Abbreviation found := (page_found requests_get).
Local Abbreviation run_of_strikes := (strikes_in_a_row requests_get html_parser).
Local Abbreviation after := (after_pages requests_get html_parser).
Local Abbreviation result := (parse_book requests_get html_parser max_pages).

(** X19. The loop stops at the first event: when the pages 1 to [n]
    were found without a third strike in a row, the run ends in the state
    after these pages if [n] is the ceiling; on page [n + 1] if that page
    is not found; and on page [n + 1] if it is found and completes three
    strikes in a row. *)
Theorem run_stops_at_first_event (n : nat) :
  clean_run requests_get html_parser n ->
  (max_pages = Z.of_nat n -> result = after n) /\
  (Z.of_nat n + 1 <= max_pages -> found (Z.of_nat n + 1) = false ->
   result = stopped_missing (after n)) /\
  (Z.of_nat n + 1 <= max_pages -> found (Z.of_nat n + 1) = true ->
   run_of_strikes (S n) = 3 ->
   result = stopped_at_end requests_get html_parser (after n)).
Proof.
  intros Hc. unfold parse_book. split; [|split].
  - intros Hmax. rewrite (loop_after_pages _ _ _ n) by (try lia; exact Hc).
    apply loop_exit. cbn [page_number after_pages]. lia.
  - intros Hle Hf. rewrite (loop_after_pages _ _ _ n) by (try lia; exact Hc).
    apply loop_stop_missing; assumption.
  - intros Hle Hf H3. rewrite (loop_after_pages _ _ _ n) by (try lia; exact Hc).
    apply loop_stop_end; [exact Hle | exact Hf |].
    cbn [page_number last_content empty_page_counter after_pages].
    cbn [strikes_in_a_row] in H3. unfold strike in H3.
    destruct (empty_or_repetitive _ _); [|lia]. cbn [andb].
    apply Z.geb_le. lia.
Qed.

End Stops.

(** Four pages found, the fifth is not. *)
Lemma run_stops_at_first_event_witness :
  parse_book missing_from_5 plain_text 800 =
  stopped_missing (after_pages missing_from_5 plain_text 4).
Proof.
  assert (Hc : clean_run missing_from_5 plain_text 4).
  { intros k Hk.
    assert (E : k = 1%nat \/ k = 2%nat \/ k = 3%nat \/ k = 4%nat) by lia.
    destruct E as [-> | [-> | [-> | ->]]]; settle. }
  apply (proj1 (proj2 (run_stops_at_first_event
                         missing_from_5 plain_text 800 4 Hc))).
  - vm_compute. discriminate.
  - reflexivity.
Defined.
